(** * Authentication and account security of the HR/payroll backend

    A shallow embedding of [SecurityService] (security.service.ts),
    [AuthService] (auth.service.ts) and [UserService.changePassword]
    (user.service.ts).

    The relational store reached through the Prisma client is a record of
    tables, each table a list of rows in insertion order.  Every service
    method is an [async] function: here a function from the world before the
    call to the world after it together with the way the promise settled.
    A rejected promise keeps every write made before the rejection, as the
    source opens no transaction.

    One service call is treated as instantaneous: every clock reading made
    during the call ([Date.now()], [new Date()], the store's [now()] column
    default) returns the [now] field of the world. *)

From Stdlib Require Import List String Ascii ZArith Bool Lia DecimalString.
From Stdlib Require Import Sorted Permutation.
Import ListNotations.

Open Scope string_scope.
Open Scope Z_scope.

(** [a === b] on two strings. *)
Notation "a == b" := (String.eqb a b) (at level 70, no associativity).

(** ** Rows of the store *)

(** One element of the JSON array held in [User.passwordHistory]
    (user.service.ts, line 118). *)
Module PasswordHistoryEntry.
Record t := mk { password : string; changedAt : string }.
End PasswordHistoryEntry.

(** The columns of [User] that the modelled methods read or write.  A column
    that may hold [null] is an [option]; dates are milliseconds since the
    epoch. *)
Module User.
Record t := mk {
  id : string;
  email : string;
  username : string;
  password : string;
  firstName : string;
  lastName : string;
  roleId : string;
  companyId : string;
  accountStatus : string;
  deactivatedAt : option Z;
  deactivationReason : option string;
  lastLogin : option Z;
  lastPasswordChange : option Z;
  passwordHistory : option (list PasswordHistoryEntry.t)
}.
End User.

Module Role.
Record t := mk { id : string; name : string }.
End Role.

Module Company.
Record t := mk { id : string; name : string; identifier : string; isActive : bool }.
End Company.

Module UserSession.
Record t := mk {
  userId : string;
  token : string;
  ipAddress : option string;
  userAgent : option string;
  expiresAt : Z;
  createdAt : Z
}.
End UserSession.

Module FailedLoginAttempt.
Record t := mk {
  email : string;
  ipAddress : option string;
  userAgent : option string;
  userId : option string;
  createdAt : Z
}.
End FailedLoginAttempt.

(** [metadata] is always the object [{ username }] in the modelled flows. *)
Module UserActivity.
Record t := mk {
  userId : string;
  action : string;
  metadata : string;
  ipAddress : option string;
  userAgent : option string;
  createdAt : Z
}.
End UserActivity.

(** ** Errors and promises *)

(** What a rejected promise carries: the application's [AppError], the
    Prisma client's known request error with its code, or the error thrown
    by [jsonwebtoken]'s [verify]. *)
Inductive Error : Type :=
| AppError (message : string) (statusCode : Z)
| PrismaClientKnownRequestError (code : string)
| JsonWebTokenError.

Inductive Settled (A : Type) : Type :=
| Resolved (value : A)
| Rejected (reason : Error).
Arguments Resolved {A} value.
Arguments Rejected {A} reason.

(** The store, the clock, the source of randomness and the error console. *)
Record World := mkWorld {
  users : list User.t;
  roles : list Role.t;
  companies : list Company.t;
  userSessions : list UserSession.t;
  failedLoginAttempts : list FailedLoginAttempt.t;
  userActivities : list UserActivity.t;
  now : Z;
  entropy : nat;
  console : list (string * Error)
}.

Definition set_users (l : list User.t) (w : World) : World :=
  mkWorld l (roles w) (companies w) (userSessions w) (failedLoginAttempts w)
          (userActivities w) (now w) (entropy w) (console w).

Definition set_companies (l : list Company.t) (w : World) : World :=
  mkWorld (users w) (roles w) l (userSessions w) (failedLoginAttempts w)
          (userActivities w) (now w) (entropy w) (console w).

Definition set_userSessions (l : list UserSession.t) (w : World) : World :=
  mkWorld (users w) (roles w) (companies w) l (failedLoginAttempts w)
          (userActivities w) (now w) (entropy w) (console w).

Definition set_failedLoginAttempts (l : list FailedLoginAttempt.t) (w : World) : World :=
  mkWorld (users w) (roles w) (companies w) (userSessions w) l
          (userActivities w) (now w) (entropy w) (console w).

Definition set_userActivities (l : list UserActivity.t) (w : World) : World :=
  mkWorld (users w) (roles w) (companies w) (userSessions w) (failedLoginAttempts w)
          l (now w) (entropy w) (console w).

Definition set_now (t : Z) (w : World) : World :=
  mkWorld (users w) (roles w) (companies w) (userSessions w) (failedLoginAttempts w)
          (userActivities w) t (entropy w) (console w).

Definition set_entropy (n : nat) (w : World) : World :=
  mkWorld (users w) (roles w) (companies w) (userSessions w) (failedLoginAttempts w)
          (userActivities w) (now w) n (console w).

Definition set_console (l : list (string * Error)) (w : World) : World :=
  mkWorld (users w) (roles w) (companies w) (userSessions w) (failedLoginAttempts w)
          (userActivities w) (now w) (entropy w) l.

Definition Promise (A : Type) : Type := World -> World * Settled A.

Definition resolve {A : Type} (a : A) : Promise A := fun w => (w, Resolved a).

Definition throw {A : Type} (e : Error) : Promise A := fun w => (w, Rejected e).

(** [await m] followed by the rest of the function body. *)
Definition bind {A B : Type} (m : Promise A) (k : A -> Promise B) : Promise B :=
  fun w =>
    match m w with
    | (w', Resolved a) => k a w'
    | (w', Rejected e) => (w', Rejected e)
    end.

(** [try { m } catch (error) { handler error }]. *)
Definition tryCatch {A : Type} (m : Promise A) (handler : Error -> Promise A) : Promise A :=
  fun w =>
    match m w with
    | (w', Resolved a) => (w', Resolved a)
    | (w', Rejected e) => handler e w'
    end.

Declare Scope promise_scope.
Delimit Scope promise_scope with promise.
Notation "x <- m ;; k" := (bind m (fun x => k))
  (at level 100, m at next level, right associativity) : promise_scope.
Notation "m ;;; k" := (bind m (fun _ => k))
  (at level 100, right associativity) : promise_scope.
Open Scope promise_scope.

(** [Date.now()] and [new Date()]. *)
Definition Date_now : Promise Z := fun w => (w, Resolved (now w)).

(** One draw from the process's source of randomness. *)
Definition random : Promise nat :=
  fun w => (set_entropy (S (entropy w)) w, Resolved (entropy w)).

(** [console.error(message, error)]. *)
Definition console_error (message : string) (e : Error) : Promise unit :=
  fun w => (set_console (console w ++ [(message, e)]) w, Resolved tt).

(** The printed form of a JavaScript number holding an integer. *)
Definition Number_toString (z : Z) : string := NilZero.string_of_int (Z.to_int z).

(** ** What the services import

    The payload handed to [sign] by [generateTokens]. *)
Inductive TokenPayload : Type :=
| AccessPayload (userId roleId : string)
| RefreshPayload (userId jti : string).

(** The libraries, the configuration and the schema defaults the services
    rely on, none of which is defined in the repository's sources:
    [bcryptjs] ([hash] with its random salt drawn from the entropy,
    [compare]), [jsonwebtoken] ([sign]; [verify], which gives the [userId]
    of the decoded payload or throws, here [None]), the four settings of
    config/environment, the store's identifier generator, the nine base-36
    digits [Math.random().toString(36).substr(2, 9)], [toUpperCase],
    [toISOString], and the value a new user's [accountStatus] column takes
    when [create] leaves it out. *)
Class Platform := {
  hash : string -> nat -> string;
  compare : string -> string -> bool;
  sign : TokenPayload -> string -> string -> Z -> string;
  verify : string -> string -> Z -> option string;
  JWT_SECRET : string;
  JWT_REFRESH_SECRET : string;
  JWT_EXPIRES_IN : string;
  JWT_REFRESH_EXPIRES_IN : string;
  uuid : nat -> string;
  randomBase36 : nat -> string;
  toUpperCase : string -> string;
  toISOString : Z -> string;
  defaultAccountStatus : string
}.

(** ** The Prisma client

    Each query of the client that the services issue, over the tables of the
    world.  The schema is not among the sources; what is taken from it is
    what the services themselves rely on: [findUnique] and [delete] are
    called with [id], [email] and [token], so these columns are unique, and
    company.service.ts handles error P2002 on a company's [identifier].
    A [create] that would repeat a unique value is rejected with P2002, and
    an [update] or [delete] by a unique column that matches no row is
    rejected with P2025. *)
Module Prisma.
Section Client.
Context `{Platform}.

Definition P2002 : Error := PrismaClientKnownRequestError "P2002".
Definition P2025 : Error := PrismaClientKnownRequestError "P2025".

(** [user.findUnique({ where: { id } })] *)
Definition user_findUnique_id (id : string) : Promise (option User.t) :=
  fun w => (w, Resolved (find (fun u => User.id u == id) (users w))).

(** [user.findUnique({ where: { email } })] *)
Definition user_findUnique_email (email : string) : Promise (option User.t) :=
  fun w => (w, Resolved (find (fun u => User.email u == email) (users w))).

(** [user.findFirst({ where: { OR: [{ email }, { username }] } })] *)
Definition user_findFirst_email_or_username (email username : string)
  : Promise (option User.t) :=
  fun w => (w, Resolved (find (fun u => (User.email u == email) || (User.username u == username))
                              (users w))).

(** The columns [register] passes to [user.create]. *)
Record UserCreateInput := mkUserCreateInput {
  data_email : string;
  data_username : string;
  data_password : string;
  data_firstName : string;
  data_lastName : string;
  data_roleId : string;
  data_companyId : string
}.

(** Modelled from the spec: the schema of the [User] table is not among the
    sources; the specification gives the store unique-constraint enforcement
    on email and username, and [id] is the primary key.
    [user.create({ data })]: the store generates the [id]; the columns left
    out are [null], and [accountStatus] takes its default. *)
Definition user_create (data : UserCreateInput) : Promise User.t :=
  n <- random ;;
  fun w =>
    let u := User.mk (uuid n) (data_email data) (data_username data) (data_password data)
                     (data_firstName data) (data_lastName data) (data_roleId data)
                     (data_companyId data) defaultAccountStatus None None None None None in
    if existsb (fun v => (User.id v == User.id u) || (User.email v == User.email u)
                         || (User.username v == User.username u)) (users w)
    then (w, Rejected P2002)
    else (set_users (users w ++ [u]) w, Resolved u).

(** [user.update({ where: { id }, data })], [data] given as the change it
    makes to the row. *)
Definition user_update (id : string) (data : User.t -> User.t) : Promise User.t :=
  fun w =>
    match find (fun u => User.id u == id) (users w) with
    | None => (w, Rejected P2025)
    | Some u =>
        (set_users (map (fun v => if User.id v == id then data v else v) (users w)) w,
         Resolved (data u))
    end.

(** [role.findFirst({ where: { name } })] *)
Definition role_findFirst_name (name : string) : Promise (option Role.t) :=
  fun w => (w, Resolved (find (fun r => Role.name r == name) (roles w))).

(** The [role] relation loaded by [include: { role: true }]. *)
Definition user_role (u : User.t) : Promise (option Role.t) :=
  fun w => (w, Resolved (find (fun r => Role.id r == User.roleId u) (roles w))).

(** Modelled from the spec: the schema of the [Company] table is not among
    the sources; [identifier] is unique, as company.service.ts expects P2002
    from this very query.
    [company.create({ data: { name, identifier, isActive } })] *)
Definition company_create (name identifier : string) (isActive : bool) : Promise Company.t :=
  n <- random ;;
  fun w =>
    let c := Company.mk (uuid n) name identifier isActive in
    if existsb (fun d => (Company.id d == Company.id c)
                         || (Company.identifier d == identifier)) (companies w)
    then (w, Rejected P2002)
    else (set_companies (companies w ++ [c]) w, Resolved c).

(** [failedLoginAttempt.create({ data: { email, ipAddress, userAgent, userId } })] *)
Definition failedLoginAttempt_create (email : string) (ipAddress userAgent userId : option string)
  : Promise FailedLoginAttempt.t :=
  fun w =>
    let a := FailedLoginAttempt.mk email ipAddress userAgent userId (now w) in
    (set_failedLoginAttempts (failedLoginAttempts w ++ [a]) w, Resolved a).

(** The rows selected by [{ userId, createdAt: { gte } }]. *)
Definition attempt_matches (userId : string) (gte : Z) (a : FailedLoginAttempt.t) : bool :=
  match FailedLoginAttempt.userId a with
  | Some i => (i == userId) && (gte <=? FailedLoginAttempt.createdAt a)
  | None => false
  end.

(** [failedLoginAttempt.count({ where: { userId, createdAt: { gte } } })] *)
Definition failedLoginAttempt_count (userId : string) (gte : Z) : Promise Z :=
  fun w => (w, Resolved (Z.of_nat (List.length (filter (attempt_matches userId gte)
                                                  (failedLoginAttempts w))))).

(** [failedLoginAttempt.deleteMany({ where: { createdAt: { lt } } })] *)
Definition failedLoginAttempt_deleteMany_createdAt_lt (lt : Z) : Promise unit :=
  fun w => (set_failedLoginAttempts
              (filter (fun a => negb (FailedLoginAttempt.createdAt a <? lt))
                      (failedLoginAttempts w)) w,
            Resolved tt).

(** [userSession.deleteMany({ where: { token } })] *)
Definition userSession_deleteMany_token (token : string) : Promise unit :=
  fun w => (set_userSessions
              (filter (fun s => negb (UserSession.token s == token)) (userSessions w)) w,
            Resolved tt).

(** [userSession.deleteMany({ where: { userId } })] *)
Definition userSession_deleteMany_userId (userId : string) : Promise unit :=
  fun w => (set_userSessions
              (filter (fun s => negb (UserSession.userId s == userId)) (userSessions w)) w,
            Resolved tt).

(** [userSession.deleteMany({ where: { expiresAt: { lt } } })] *)
Definition userSession_deleteMany_expiresAt_lt (lt : Z) : Promise unit :=
  fun w => (set_userSessions
              (filter (fun s => negb (UserSession.expiresAt s <? lt)) (userSessions w)) w,
            Resolved tt).

(** [userSession.delete({ where: { token } })] *)
Definition userSession_delete_token (token : string) : Promise unit :=
  fun w =>
    if existsb (fun s => UserSession.token s == token) (userSessions w)
    then (set_userSessions
            (filter (fun s => negb (UserSession.token s == token)) (userSessions w)) w,
          Resolved tt)
    else (w, Rejected P2025).

(** Modelled from the spec: the schema of the [UserSession] table is not
    among the sources; the specification gives the store unique-constraint
    enforcement on the session token, and [createdAt] is the instant of the
    insert.
    [userSession.create({ data: { userId, token, ipAddress, userAgent, expiresAt } })] *)
Definition userSession_create (userId token : string) (ipAddress userAgent : option string)
  (expiresAt : Z) : Promise UserSession.t :=
  fun w =>
    let s := UserSession.mk userId token ipAddress userAgent expiresAt (now w) in
    if existsb (fun r => UserSession.token r == token) (userSessions w)
    then (w, Rejected P2002)
    else (set_userSessions (userSessions w ++ [s]) w, Resolved s).

(** [userSession.findMany({ where: { userId, expiresAt: { gt } } })], before
    the ordering. *)
Definition userSession_findMany (userId : string) (gt : Z) : Promise (list UserSession.t) :=
  fun w => (w, Resolved (filter (fun s => (UserSession.userId s == userId)
                                          && (gt <? UserSession.expiresAt s))
                                (userSessions w))).

(** [userActivity.create({ data: { userId, action, metadata, ipAddress, userAgent } })] *)
Definition userActivity_create (userId action metadata : string)
  (ipAddress userAgent : option string) : Promise UserActivity.t :=
  fun w =>
    let a := UserActivity.mk userId action metadata ipAddress userAgent (now w) in
    (set_userActivities (userActivities w ++ [a]) w, Resolved a).

(** [orderBy: { createdAt: 'desc' }]: the rows by decreasing [createdAt];
    rows created at the same instant keep the order of the table. *)
Fixpoint insert_createdAt_desc (s : UserSession.t) (l : list UserSession.t)
  : list UserSession.t :=
  match l with
  | [] => [s]
  | r :: rest =>
      if UserSession.createdAt s <? UserSession.createdAt r
      then r :: insert_createdAt_desc s rest
      else s :: l
  end.

Definition orderBy_createdAt_desc (l : list UserSession.t) : list UserSession.t :=
  fold_right insert_createdAt_desc [] l.

End Client.
End Prisma.

(** ** security.service.ts *)
Module SecurityService.
Section Service.
Context `{Platform}.

Definition MAX_FAILED_ATTEMPTS : Z := 5.
Definition LOCKOUT_DURATION : Z := 15 * 60 * 1000.
Definition SESSION_EXPIRY : Z := 24 * 60 * 60 * 1000.

(** The [data] of the [user.update] that locks an account. *)
Definition lock_data (at_ : Z) (u : User.t) : User.t :=
  User.mk (User.id u) (User.email u) (User.username u) (User.password u)
          (User.firstName u) (User.lastName u) (User.roleId u) (User.companyId u)
          "LOCKED" (Some at_) (Some "Too many failed login attempts")
          (User.lastLogin u) (User.lastPasswordChange u) (User.passwordHistory u).

(** The [data] of the [user.update] that unlocks it again. *)
Definition unlock_data (u : User.t) : User.t :=
  User.mk (User.id u) (User.email u) (User.username u) (User.password u)
          (User.firstName u) (User.lastName u) (User.roleId u) (User.companyId u)
          "ACTIVE" None None
          (User.lastLogin u) (User.lastPasswordChange u) (User.passwordHistory u).

Definition trackFailedLoginAttempt (email : string) (ipAddress userAgent : option string)
  : Promise unit :=
  user <- Prisma.user_findUnique_email email ;;
  _ <- Prisma.failedLoginAttempt_create email ipAddress userAgent (option_map User.id user) ;;
  match user with
  | Some user =>
      t <- Date_now ;;
      recentAttempts <- Prisma.failedLoginAttempt_count (User.id user) (t - LOCKOUT_DURATION) ;;
      if MAX_FAILED_ATTEMPTS <=? recentAttempts
      then
        t' <- Date_now ;;
        _ <- Prisma.user_update (User.id user) (lock_data t') ;;
        resolve tt
      else resolve tt
  | None => resolve tt
  end.

Definition isAccountLocked (userId : string) : Promise bool :=
  user <- Prisma.user_findUnique_id userId ;;
  match user with
  | None => resolve false
  | Some user =>
      match User.accountStatus user == "LOCKED", User.deactivatedAt user with
      | true, Some deactivatedAt =>
          let lockoutEnd := deactivatedAt + LOCKOUT_DURATION in
          t <- Date_now ;;
          if t <? lockoutEnd
          then resolve true
          else
            _ <- Prisma.user_update userId unlock_data ;;
            resolve false
      | _, _ => resolve false
      end
  end.

Definition createSession (userId token : string) (ipAddress userAgent : option string)
  : Promise UserSession.t :=
  _ <- Prisma.userSession_deleteMany_token token ;;
  t <- Date_now ;;
  Prisma.userSession_create userId token ipAddress userAgent (t + SESSION_EXPIRY).

Definition invalidateSession (token : string) : Promise unit :=
  Prisma.userSession_delete_token token.

Definition invalidateAllSessions (userId : string) : Promise unit :=
  Prisma.userSession_deleteMany_userId userId.

Definition trackActivity (userId action metadata : string) (ipAddress userAgent : option string)
  : Promise UserActivity.t :=
  Prisma.userActivity_create userId action metadata ipAddress userAgent.

Definition cleanupOldRecords : Promise unit :=
  t <- Date_now ;;
  _ <- Prisma.userSession_deleteMany_expiresAt_lt t ;;
  Prisma.failedLoginAttempt_deleteMany_createdAt_lt (t - 24 * 60 * 60 * 1000).

Definition getUserSessions (userId : string) : Promise (list UserSession.t) :=
  t <- Date_now ;;
  rows <- Prisma.userSession_findMany userId t ;;
  resolve (Prisma.orderBy_createdAt_desc rows).

End Service.
End SecurityService.

(** ** auth.service.ts *)
Module AuthService.
Section Service.
Context `{Platform}.

Record IRegisterDto := mkRegisterDto {
  reg_email : string;
  reg_username : string;
  reg_password : string;
  reg_firstName : string;
  reg_lastName : string;
  reg_ipAddress : option string;
  reg_userAgent : option string
}.

Record ILoginDto := mkLoginDto {
  login_email : string;
  login_password : string;
  login_ipAddress : option string;
  login_userAgent : option string
}.

Record IRefreshTokenDto := mkRefreshTokenDto {
  refresh_refreshToken : string;
  refresh_ipAddress : option string;
  refresh_userAgent : option string
}.

Record UserSummary := mkUserSummary {
  sum_id : string;
  sum_email : string;
  sum_username : string;
  sum_role : string;
  sum_companyId : string
}.

Record IAuthResponse := mkAuthResponse {
  accessToken : string;
  refreshToken_ : string;
  user : UserSummary
}.

(** [user.role?.name || 'USER'] *)
Definition role_name (role : option Role.t) : string :=
  match role with
  | Some r => if Role.name r == "" then "USER" else Role.name r
  | None => "USER"
  end.

Definition summary (u : User.t) (role : option Role.t) : UserSummary :=
  mkUserSummary (User.id u) (User.email u) (User.username u) (role_name role)
                (User.companyId u).

Definition generateTokens (user : User.t) : Promise (string * string) :=
  t <- Date_now ;;
  let accessToken :=
    sign (AccessPayload (User.id user) (User.roleId user)) JWT_SECRET JWT_EXPIRES_IN t in
  r <- random ;;
  let jti := Number_toString t ++ "_" ++ randomBase36 r in
  let refreshToken :=
    sign (RefreshPayload (User.id user) jti) JWT_REFRESH_SECRET JWT_REFRESH_EXPIRES_IN t in
  resolve (accessToken, refreshToken).

Definition UserAlreadyExists : Error := AppError "User already exists" 400.
Definition DefaultRoleNotFound : Error := AppError "Default role not found" 500.
Definition InvalidCredentials : Error := AppError "Invalid credentials" 401.
Definition AccountLocked : Error :=
  AppError "Account is locked due to too many failed attempts. Please try again later." 401.
Definition InvalidRefreshToken : Error := AppError "Invalid refresh token" 401.

Definition register (data : IRegisterDto) : Promise IAuthResponse :=
  existingUser <- Prisma.user_findFirst_email_or_username (reg_email data) (reg_username data) ;;
  match existingUser with
  | Some _ => throw UserAlreadyExists
  | None =>
      salt <- random ;;
      let hashedPassword := hash (reg_password data) salt in
      defaultRole <- Prisma.role_findFirst_name "USER" ;;
      match defaultRole with
      | None => throw DefaultRoleNotFound
      | Some defaultRole =>
          defaultCompany <- Prisma.company_create (reg_firstName data ++ "'s Company")
                                                  (toUpperCase (reg_username data)) true ;;
          user <- Prisma.user_create
                    (Prisma.mkUserCreateInput (reg_email data) (reg_username data)
                       hashedPassword (reg_firstName data) (reg_lastName data)
                       (Role.id defaultRole) (Company.id defaultCompany)) ;;
          role <- Prisma.user_role user ;;
          tokens <- generateTokens user ;;
          _ <- SecurityService.createSession (User.id user) (snd tokens)
                 (reg_ipAddress data) (reg_userAgent data) ;;
          _ <- SecurityService.trackActivity (User.id user) "USER_REGISTERED"
                 (User.username user) (reg_ipAddress data) (reg_userAgent data) ;;
          resolve (mkAuthResponse (fst tokens) (snd tokens) (summary user role))
      end
  end.

(** The [data] of the [user.update] made by a successful login. *)
Definition lastLogin_data (at_ : Z) (u : User.t) : User.t :=
  User.mk (User.id u) (User.email u) (User.username u) (User.password u)
          (User.firstName u) (User.lastName u) (User.roleId u) (User.companyId u)
          (User.accountStatus u) (User.deactivatedAt u) (User.deactivationReason u)
          (Some at_) (User.lastPasswordChange u) (User.passwordHistory u).

Definition login (data : ILoginDto) : Promise IAuthResponse :=
  let email := login_email data in
  let password := login_password data in
  let ipAddress := login_ipAddress data in
  let userAgent := login_userAgent data in
  user <- Prisma.user_findUnique_email email ;;
  match user with
  | None =>
      _ <- SecurityService.trackFailedLoginAttempt email ipAddress userAgent ;;
      throw InvalidCredentials
  | Some user =>
      role <- Prisma.user_role user ;;
      isLocked <- SecurityService.isAccountLocked (User.id user) ;;
      if isLocked then throw AccountLocked
      else
        let isPasswordValid := compare password (User.password user) in
        if negb isPasswordValid
        then
          _ <- SecurityService.trackFailedLoginAttempt email ipAddress userAgent ;;
          throw InvalidCredentials
        else
          t <- Date_now ;;
          _ <- Prisma.user_update (User.id user) (lastLogin_data t) ;;
          tokens <- generateTokens user ;;
          _ <- SecurityService.createSession (User.id user) (snd tokens) ipAddress userAgent ;;
          _ <- SecurityService.trackActivity (User.id user) "USER_LOGGED_IN"
                 (User.username user) ipAddress userAgent ;;
          resolve (mkAuthResponse (fst tokens) (snd tokens) (summary user role))
  end.

Definition refreshToken (data : IRefreshTokenDto) : Promise IAuthResponse :=
  let refreshToken := refresh_refreshToken data in
  let ipAddress := refresh_ipAddress data in
  let userAgent := refresh_userAgent data in
  tryCatch
    (t <- Date_now ;;
     match verify refreshToken JWT_REFRESH_SECRET t with
     | None => throw JsonWebTokenError
     | Some userId =>
         user <- Prisma.user_findUnique_id userId ;;
         match user with
         | None => throw (AppError "User not found" 401)
         | Some user =>
             role <- Prisma.user_role user ;;
             _ <- SecurityService.invalidateSession refreshToken ;;
             tokens <- generateTokens user ;;
             _ <- SecurityService.createSession (User.id user) (snd tokens) ipAddress userAgent ;;
             _ <- SecurityService.trackActivity (User.id user) "TOKEN_REFRESHED"
                    (User.username user) ipAddress userAgent ;;
             resolve (mkAuthResponse (fst tokens) (snd tokens) (summary user role))
         end
     end)
    (fun error => throw InvalidRefreshToken).

Definition logout (refreshToken : string) : Promise unit :=
  tryCatch
    (SecurityService.invalidateSession refreshToken)
    (fun error => console_error "Error during logout, refresh token might not exist:" error).

End Service.
End AuthService.

(** ** user.service.ts *)
Module UserService.
Section Service.
Context `{Platform}.

Definition UserNotFound : Error := AppError "User not found" 404.
Definition CurrentPasswordIncorrect : Error := AppError "Current password is incorrect" 400.
Definition PasswordReused : Error :=
  AppError "New password cannot be the same as any of your last 5 passwords" 400.

(** The loop over [passwordHistory] of lines 119 to 124. *)
Fixpoint checkHistory (newPassword : string) (passwordHistory : list PasswordHistoryEntry.t)
  : Promise unit :=
  match passwordHistory with
  | [] => resolve tt
  | history :: rest =>
      let isPasswordInHistory := compare newPassword (PasswordHistoryEntry.password history) in
      if isPasswordInHistory then throw PasswordReused
      else checkHistory newPassword rest
  end.

(** The [data] of the [user.update] that stores the new password. *)
Definition password_data (hashedPassword : string)
  (updatedHistory : list PasswordHistoryEntry.t) (at_ : Z) (u : User.t) : User.t :=
  User.mk (User.id u) (User.email u) (User.username u) hashedPassword
          (User.firstName u) (User.lastName u) (User.roleId u) (User.companyId u)
          (User.accountStatus u) (User.deactivatedAt u) (User.deactivationReason u)
          (User.lastLogin u) (Some at_) (Some updatedHistory).

Definition changePassword (userId currentPassword newPassword : string) : Promise string :=
  user <- Prisma.user_findUnique_id userId ;;
  match user with
  | None => throw UserNotFound
  | Some user =>
      let isPasswordValid := compare currentPassword (User.password user) in
      if negb isPasswordValid then throw CurrentPasswordIncorrect
      else
        let passwordHistory :=
          match User.passwordHistory user with Some l => l | None => [] end in
        _ <- checkHistory newPassword passwordHistory ;;
        salt <- random ;;
        let hashedPassword := hash newPassword salt in
        t <- Date_now ;;
        let updatedHistory :=
          PasswordHistoryEntry.mk hashedPassword (toISOString t) :: firstn 4 passwordHistory in
        t' <- Date_now ;;
        _ <- Prisma.user_update userId (password_data hashedPassword updatedHistory t') ;;
        resolve "Password updated successfully"
  end.

(** What [getPasswordHistory] returns: the [changedAt] of every entry, the
    hashes left out, and [lastPasswordChange]. *)
Record PasswordHistoryView := mkPasswordHistoryView {
  view_passwordHistory : list string;
  view_lastPasswordChange : option Z
}.

(** The calls to [logger] write to a sink outside the world and are left
    out; the stored history is an array, so the branch that parses a string
    and the inner [catch] are never taken. *)
Definition getPasswordHistory (userId : string) : Promise PasswordHistoryView :=
  tryCatch
    (user <- Prisma.user_findUnique_id userId ;;
     match user with
     | None => throw UserNotFound
     | Some user =>
         let passwordHistory :=
           match User.passwordHistory user with
           | Some history => map PasswordHistoryEntry.changedAt history
           | None => []
           end in
         resolve (mkPasswordHistoryView passwordHistory (User.lastPasswordChange user))
     end)
    (fun error => throw error).

End Service.
End UserService.

(** ** The controllers

    What a handler hands to [res]: the status and the JSON body, which is
    either [{ status: 'success', data }] or [{ status: 'error', message }]
    with the message of the error that was caught. *)
Module Http.

Inductive Json (A : Type) : Type :=
| success (data : A)
| error (message : string)
| error_of (reason : Error).
Arguments success {A} data.
Arguments error {A} message.
Arguments error_of {A} reason.

Record Response (A : Type) : Type := mkResponse { status : Z; json : Json A }.
Arguments mkResponse {A} status json.
Arguments status {A} r.
Arguments json {A} r.

(** [error.statusCode || 500]: only an [AppError] carries a status code, and
    a code of zero is falsy. *)
Definition statusCode_or_500 (e : Error) : Z :=
  match e with
  | AppError _ statusCode => if statusCode =? 0 then 500 else statusCode
  | _ => 500
  end.

End Http.

(** auth.controller.ts *)
Module AuthController.
Section Controller.
Context `{Platform}.

Definition register (body : AuthService.IRegisterDto)
  : Promise (Http.Response AuthService.IAuthResponse) :=
  tryCatch
    (result <- AuthService.register body ;;
     resolve (Http.mkResponse 201 (Http.success result)))
    (fun error =>
       _ <- console_error "Register error:" error ;;
       resolve (Http.mkResponse (Http.statusCode_or_500 error) (Http.error_of error))).

Definition login (body : AuthService.ILoginDto)
  : Promise (Http.Response AuthService.IAuthResponse) :=
  tryCatch
    (result <- AuthService.login body ;;
     resolve (Http.mkResponse 200 (Http.success result)))
    (fun error =>
       _ <- console_error "Login error:" error ;;
       resolve (Http.mkResponse (Http.statusCode_or_500 error) (Http.error_of error))).

Definition refreshToken (body : AuthService.IRefreshTokenDto)
  : Promise (Http.Response AuthService.IAuthResponse) :=
  tryCatch
    (result <- AuthService.refreshToken body ;;
     resolve (Http.mkResponse 200 (Http.success result)))
    (fun error =>
       resolve (Http.mkResponse (Http.statusCode_or_500 error) (Http.error_of error))).

End Controller.
End AuthController.

(** user.controller.ts, the handler of the password change; [req.user?.id]
    is the identity the authentication middleware left on the request, if
    any, and [!userId] also holds of the empty string. *)
Module UserController.
Section Controller.
Context `{Platform}.

Definition changePassword (user_id : option string) (currentPassword newPassword : string)
  : Promise (Http.Response string) :=
  tryCatch
    (match user_id with
     | None => resolve (Http.mkResponse 401 (Http.error "Unauthorized"))
     | Some userId =>
         if userId == ""
         then resolve (Http.mkResponse 401 (Http.error "Unauthorized"))
         else
           result <- UserService.changePassword userId currentPassword newPassword ;;
           resolve (Http.mkResponse 200 (Http.success result))
     end)
    (fun error =>
       _ <- console_error "changePassword error:" error ;;
       resolve (Http.mkResponse (Http.statusCode_or_500 error) (Http.error_of error))).

End Controller.
End UserController.

(** ** Vocabulary of the properties *)
Section Vocabulary.
Context `{Platform}.

(** The failed attempts stored for an account whose [createdAt] lies within
    the lockout window that ends at the current instant: what the [count]
    of [trackFailedLoginAttempt] sees before the new row is added. *)
Definition recentAttempts (userId : string) (w : World) : Z :=
  Z.of_nat (List.length (filter (Prisma.attempt_matches userId (now w - 15 * 60 * 1000))
                                (failedLoginAttempts w))).

(** The change [user.update] makes to each row of the table when it locks,
    respectively unlocks, the account [i]. *)
Definition lock_where (i : string) (t : Z) (v : User.t) : User.t :=
  if User.id v == i then SecurityService.lock_data t v else v.

Definition unlock_where (i : string) (v : User.t) : User.t :=
  if User.id v == i then SecurityService.unlock_data v else v.

(** The session row carries the given token. *)
Definition token_is (token : string) (s : UserSession.t) : bool :=
  UserSession.token s == token.

(** [user.passwordHistory || []] *)
Definition history_of (u : User.t) : list PasswordHistoryEntry.t :=
  match User.passwordHistory u with Some l => l | None => [] end.

(** The new password matches an entry of the history under [compare]. *)
Definition password_matches (newPassword : string) (h : PasswordHistoryEntry.t) : bool :=
  compare newPassword (PasswordHistoryEntry.password h).

(** No two session rows carry the same token. *)
Definition tokens_unique (w : World) : Prop :=
  NoDup (map UserSession.token (userSessions w)).

(** A property of the world that a call keeps, however the call settles. *)
Definition invariant {A : Type} (I : World -> Prop) (m : Promise A) : Prop :=
  forall w, I w -> I (fst (m w)).

(** The calls that reach the store, and the passing of time between them. *)
Inductive Request : Type :=
| Register (data : AuthService.IRegisterDto)
| Login (data : AuthService.ILoginDto)
| RefreshToken (data : AuthService.IRefreshTokenDto)
| Logout (refreshToken : string)
| ChangePassword (userId currentPassword newPassword : string)
| InvalidateAllSessions (userId : string)
| CleanupOldRecords
| Elapse (t : Z).

Definition handle (req : Request) (w : World) : World :=
  match req with
  | Register data => fst (AuthService.register data w)
  | Login data => fst (AuthService.login data w)
  | RefreshToken data => fst (AuthService.refreshToken data w)
  | Logout refreshToken => fst (AuthService.logout refreshToken w)
  | ChangePassword userId currentPassword newPassword =>
      fst (UserService.changePassword userId currentPassword newPassword w)
  | InvalidateAllSessions userId => fst (SecurityService.invalidateAllSessions userId w)
  | CleanupOldRecords => fst (SecurityService.cleanupOldRecords w)
  | Elapse t => set_now t w
  end.

Definition serve (reqs : list Request) (w : World) : World :=
  fold_left (fun w req => handle req w) reqs w.

(** The error a call was rejected with, if it was. *)
Definition rejection {A : Type} (r : World * Settled A) : option Error :=
  match snd r with
  | Rejected e => Some e
  | Resolved _ => None
  end.

(** Every stored password history holds at most five entries. *)
Definition history_bounded (w : World) : Prop :=
  Forall (fun u => (List.length (history_of u) <= 5)%nat) (users w).

(** The rows [getUserSessions] selects: the user's sessions that expire
    after the current instant. *)
Definition active_for (userId : string) (t : Z) (s : UserSession.t) : bool :=
  (UserSession.userId s == userId) && (t <? UserSession.expiresAt s).

(** Newest first, for two sessions. *)
Definition newer_first (a b : UserSession.t) : Prop :=
  UserSession.createdAt b <= UserSession.createdAt a.

(** The pair [generateTokens] issues for a user in a world. *)
Definition issued_tokens (u : User.t) (w : World) : string * string :=
  (sign (AccessPayload (User.id u) (User.roleId u)) JWT_SECRET JWT_EXPIRES_IN (now w),
   sign (RefreshPayload (User.id u)
           (Number_toString (now w) ++ "_" ++ randomBase36 (entropy w)))
        JWT_REFRESH_SECRET JWT_REFRESH_EXPIRES_IN (now w)).

(** The role [include: { role: true }] loads for a user. *)
Definition role_of (u : User.t) (w : World) : option Role.t :=
  find (fun r => Role.id r == User.roleId u) (roles w).

End Vocabulary.

(** ** A small platform to run the services on

    Stand-ins for the imported libraries, simple enough to evaluate: a hash
    is the salt in decimal, a dollar sign and the password; a token is the
    secret, the user's id and the remaining claim separated by colons. *)
Module Toy.

Definition salted (password : string) (salt : nat) : string :=
  Number_toString (Z.of_nat salt) ++ "$" ++ password.

Definition matches (password hashed : string) : bool :=
  match index 0 "$" hashed with
  | Some i => substring (S i) (String.length hashed) hashed == password
  | None => false
  end.

Definition signed (payload : TokenPayload) (secret expiresIn : string) (t : Z) : string :=
  match payload with
  | AccessPayload userId roleId => secret ++ ":" ++ userId ++ ":" ++ roleId
  | RefreshPayload userId jti => secret ++ ":" ++ userId ++ ":" ++ jti
  end.

Definition verified (token secret : string) (t : Z) : option string :=
  if prefix (secret ++ ":") token
  then
    let rest := substring (S (String.length secret)) (String.length token) token in
    match index 0 ":" rest with
    | Some i => Some (substring 0 i rest)
    | None => None
    end
  else None.

Fixpoint upper (s : string) : string :=
  match s with
  | EmptyString => EmptyString
  | String c rest =>
      let n := nat_of_ascii c in
      String (if (Nat.leb 97 n && Nat.leb n 122)%bool then ascii_of_nat (n - 32) else c)
             (upper rest)
  end.

Definition platform : Platform := {|
  hash := salted;
  compare := matches;
  sign := signed;
  verify := verified;
  JWT_SECRET := "access-secret";
  JWT_REFRESH_SECRET := "refresh-secret";
  JWT_EXPIRES_IN := "15m";
  JWT_REFRESH_EXPIRES_IN := "7d";
  uuid := fun n => "id-" ++ Number_toString (Z.of_nat n);
  randomBase36 := fun n => Number_toString (Z.of_nat n);
  toUpperCase := upper;
  toISOString := Number_toString;
  defaultAccountStatus := "ACTIVE"
|}.

(** A store holding the default role and nothing else. *)
Definition empty_store : World :=
  mkWorld [] [Role.mk "role-user" "USER"] [] [] [] [] 0 0 [].

Definition alice_registers : AuthService.IRegisterDto :=
  AuthService.mkRegisterDto "alice@example.com" "alice" "Passw0rd!" "Alice" "Evans" None None.

Definition alice_logs_in (password : string) : AuthService.ILoginDto :=
  AuthService.mkLoginDto "alice@example.com" password None None.

(** The row [alice_registers] leaves in an empty store. *)
Definition alice : User.t :=
  User.mk "id-2" "alice@example.com" "alice" "0$Passw0rd!" "Alice" "Evans" "role-user"
          "id-1" "ACTIVE" None None None None None.

(** A failed attempt against alice's account at the given instant. *)
Definition failed_at (t : Z) : FailedLoginAttempt.t :=
  FailedLoginAttempt.mk "alice@example.com" None None (Some "id-2") t.

(** A store with one user, at the given instant. *)
Definition store_of (u : User.t) (sessions : list UserSession.t)
  (attempts : list FailedLoginAttempt.t) (t : Z) : World :=
  mkWorld [u] [Role.mk "role-user" "USER"]
          [Company.mk "id-1" "Alice's Company" "ALICE" true]
          sessions attempts [] t 4 [].

(** Alice's account locked at instant 1000, looked at at instant 2000. *)
Definition locked_store : World :=
  store_of (SecurityService.lock_data 1000 alice) [] [] 2000.

(** A refresh token naming alice that the toy [verify] accepts, and the
    session row that backs it. *)
Definition alice_token : string := "refresh-secret:id-2:0_3".

Definition alice_session : UserSession.t :=
  UserSession.mk "id-2" alice_token None None 86400000 0.

Definition alice_refreshes : AuthService.IRefreshTokenDto :=
  AuthService.mkRefreshTokenDto alice_token None None.

End Toy.

(** ** Properties *)
Section Properties.
Context `{Platform}.

Ltac step :=
  cbv beta iota zeta delta
    [bind resolve throw tryCatch Date_now random console_error
     Prisma.user_findUnique_id Prisma.user_findUnique_email
     Prisma.user_findFirst_email_or_username Prisma.user_update Prisma.user_role
     Prisma.role_findFirst_name Prisma.failedLoginAttempt_create
     Prisma.failedLoginAttempt_count Prisma.userSession_deleteMany_token
     Prisma.userSession_delete_token Prisma.userSession_create
     Prisma.userActivity_create
     SecurityService.LOCKOUT_DURATION SecurityService.MAX_FAILED_ATTEMPTS
     SecurityService.SESSION_EXPIRY];
  change (15 * 60 * 1000) with 900000;
  change (24 * 60 * 60 * 1000) with 86400000.

Lemma find_update_id (i : string) (f : User.t -> User.t) (l : list User.t) :
  (forall u, User.id (f u) = User.id u) ->
  find (fun u => User.id u == i) (map (fun v => if User.id v == i then f v else v) l)
  = option_map f (find (fun u => User.id u == i) l).
Proof.
  intros Hf. induction l as [|a l IH]; simpl; [reflexivity|].
  destruct (User.id a == i) eqn:E.
  - rewrite Hf, E. reflexivity.
  - rewrite E. exact IH.
Qed.

Lemma find_update_email (e i : string) (f : User.t -> User.t) (l : list User.t) :
  (forall u, User.email (f u) = User.email u) ->
  find (fun u => User.email u == e) (map (fun v => if User.id v == i then f v else v) l)
  = option_map (fun v => if User.id v == i then f v else v) (find (fun u => User.email u == e) l).
Proof.
  intros Hf. induction l as [|a l IH]; simpl; [reflexivity|].
  assert (Ha : User.email (if User.id a == i then f a else a) = User.email a)
    by (destruct (User.id a == i); [apply Hf | reflexivity]).
  rewrite Ha. destruct (User.email a == e); [reflexivity | exact IH].
Qed.

Lemma find_email_has_id (e : string) (l : list User.t) (u : User.t) :
  find (fun v => User.email v == e) l = Some u ->
  exists u0, find (fun v => User.id v == User.id u) l = Some u0.
Proof.
  intros Hu. apply find_some in Hu. destruct Hu as [Hin _].
  destruct (find (fun v => User.id v == User.id u) l) as [u0|] eqn:E; [eauto|].
  exfalso. apply (find_none _ _ E) in Hin. rewrite String.eqb_refl in Hin. discriminate.
Qed.

Lemma find_snoc_new (i : string) (l : list User.t) (u : User.t) :
  find (fun v => User.id v == i) l = None -> User.id u = i ->
  find (fun v => User.id v == i) (l ++ [u]) = Some u.
Proof.
  intros Hn Hi. induction l as [|a l IH]; cbn [app find] in *.
  - rewrite Hi, String.eqb_refl. reflexivity.
  - destruct (User.id a == i); [discriminate | exact (IH Hn)].
Qed.

Lemma isAccountLocked_true (w : World) (userId : string) (u : User.t) (d : Z) :
  find (fun v => User.id v == userId) (users w) = Some u ->
  User.accountStatus u = "LOCKED" -> User.deactivatedAt u = Some d ->
  now w < d + 900000 ->
  SecurityService.isAccountLocked userId w = (w, Resolved true).
Proof.
  intros Hu Es Ed Ht. unfold SecurityService.isAccountLocked. step.
  rewrite Hu, Es, Ed. simpl (_ == _). cbv beta iota.
  apply Z.ltb_lt in Ht. rewrite Ht. reflexivity.
Qed.

Lemma isAccountLocked_cases (w : World) (userId : string) :
  (exists b, SecurityService.isAccountLocked userId w = (w, Resolved b)) \/
  SecurityService.isAccountLocked userId w
  = (set_users (map (unlock_where userId) (users w)) w, Resolved false).
Proof.
  unfold SecurityService.isAccountLocked. step.
  destruct (find _ (users w)) as [u|] eqn:Hu; [|left; eauto].
  destruct (User.accountStatus u == "LOCKED"); [|left; eauto].
  destruct (User.deactivatedAt u) as [d|]; [|left; eauto]. cbv beta.
  destruct (now w <? d + 900000); [left; eauto|]. rewrite Hu. right. reflexivity.
Qed.

Lemma trackFailedLoginAttempt_unknown (w : World) (email : string) (ip ua : option string) :
  find (fun u => User.email u == email) (users w) = None ->
  SecurityService.trackFailedLoginAttempt email ip ua w
  = (set_failedLoginAttempts
       (failedLoginAttempts w ++ [FailedLoginAttempt.mk email ip ua None (now w)]) w,
     Resolved tt).
Proof.
  intros Hu. unfold SecurityService.trackFailedLoginAttempt. step. rewrite Hu. reflexivity.
Qed.

Lemma trackFailedLoginAttempt_known (w : World) (email : string) (ip ua : option string)
  (u : User.t) :
  find (fun u => User.email u == email) (users w) = Some u ->
  let w1 := set_failedLoginAttempts
              (failedLoginAttempts w
               ++ [FailedLoginAttempt.mk email ip ua (Some (User.id u)) (now w)]) w in
  SecurityService.trackFailedLoginAttempt email ip ua w
  = (if 5 <=? recentAttempts (User.id u) w + 1
     then set_users (map (lock_where (User.id u) (now w)) (users w)) w1
     else w1,
     Resolved tt).
Proof.
  intros Hu w1. unfold SecurityService.trackFailedLoginAttempt. step. rewrite Hu.
  cbn [option_map failedLoginAttempts set_failedLoginAttempts now users].
  assert (Hc : Z.of_nat (List.length
                 (filter (Prisma.attempt_matches (User.id u) (now w - 900000))
                    (failedLoginAttempts w
                     ++ [FailedLoginAttempt.mk email ip ua (Some (User.id u)) (now w)])))
               = recentAttempts (User.id u) w + 1).
  { unfold recentAttempts. step.
    rewrite filter_app, length_app. cbn [filter].
    unfold Prisma.attempt_matches at 2.
    cbn [FailedLoginAttempt.userId FailedLoginAttempt.createdAt].
    rewrite String.eqb_refl.
    replace (now w - 900000 <=? now w) with true by (symmetry; apply Z.leb_le; lia).
    cbn [andb List.length]. lia. }
  rewrite Hc. destruct (5 <=? recentAttempts (User.id u) w + 1); [|reflexivity].
  subst w1. cbv beta. cbn [users set_failedLoginAttempts now].
  destruct (find_email_has_id _ _ _ Hu) as [u0 Hu0]. rewrite Hu0. reflexivity.
Qed.

Lemma trackFailedLoginAttempt_appends (w : World) (email : string) (ip ua : option string)
  (u : User.t) :
  find (fun v => User.email v == email) (users w) = Some u ->
  exists w',
    SecurityService.trackFailedLoginAttempt email ip ua w = (w', Resolved tt) /\
    failedLoginAttempts w'
    = (failedLoginAttempts w
       ++ [FailedLoginAttempt.mk email ip ua (Some (User.id u)) (now w)])%list.
Proof.
  intros Hu. rewrite (trackFailedLoginAttempt_known w email ip ua u Hu). cbv zeta.
  destruct (5 <=? _); eexists; split; reflexivity.
Qed.

Lemma createSession_run (w : World) (userId token : string) (ip ua : option string) :
  SecurityService.createSession userId token ip ua w
  = (set_userSessions
       (filter (fun s => negb (UserSession.token s == token)) (userSessions w)
        ++ [UserSession.mk userId token ip ua (now w + 86400000) (now w)]) w,
     Resolved (UserSession.mk userId token ip ua (now w + 86400000) (now w))).
Proof.
  unfold SecurityService.createSession. step. cbn [userSessions set_userSessions now].
  replace (existsb _ _) with false; [reflexivity|].
  symmetry. induction (userSessions w) as [|s l IH]; [reflexivity|].
  cbn [filter]. destruct (UserSession.token s == token) eqn:E; cbn [negb]; [exact IH|].
  cbn [existsb]. rewrite E. exact IH.
Qed.

Lemma register_resolved (w w' : World) (data : AuthService.IRegisterDto)
  (r : AuthService.IAuthResponse) :
  AuthService.register data w = (w', Resolved r) ->
  exists u,
    users w' = (users w ++ [u])%list /\
    User.id u = AuthService.sum_id (AuthService.user r) /\
    User.email u = AuthService.reg_email data /\
    User.username u = AuthService.reg_username data /\
    User.password u = hash (AuthService.reg_password data) (entropy w) /\
    User.passwordHistory u = None /\
    find (fun v => User.id v == User.id u) (users w) = None.
Proof.
  unfold AuthService.register, AuthService.generateTokens, Prisma.company_create,
    Prisma.user_create, SecurityService.trackActivity. step.
  destruct (find _ (users w)); [discriminate|].
  cbn [roles set_entropy].
  destruct (find _ (roles w)) as [role|]; [|discriminate].
  cbn [companies entropy set_entropy users set_companies].
  destruct (existsb _ (companies w)); [discriminate|].
  cbn [companies entropy set_entropy users set_companies].
  destruct (existsb _ (users w)) eqn:Ex; [discriminate|].
  rewrite createSession_run. cbv beta iota.
  intros E. injection E as <- <-.
  eexists. split; [reflexivity|]. cbn.
  repeat (split; [reflexivity|]).
  cbn in Ex. clear - Ex. induction (users w) as [|v l IH]; [reflexivity|].
  cbn [existsb find] in *. apply orb_false_elim in Ex. destruct Ex as [Ev El].
  apply orb_false_elim in Ev. destruct Ev as [Ev _].
  apply orb_false_elim in Ev. destruct Ev as [Ev _].
  rewrite Ev. exact (IH El).
Qed.

Lemma register_existing (w : World) (data : AuthService.IRegisterDto) (u : User.t) :
  In u (users w) ->
  User.email u = AuthService.reg_email data \/
  User.username u = AuthService.reg_username data ->
  AuthService.register data w = (w, Rejected AuthService.UserAlreadyExists).
Proof.
  intros Hin Hu. unfold AuthService.register. step.
  destruct (find _ (users w)) eqn:E; [reflexivity|]. exfalso.
  apply (find_none _ _ E) in Hin. apply orb_false_elim in Hin.
  destruct Hin as [He Hn], Hu as [Hu | Hu]; rewrite Hu, String.eqb_refl in *; discriminate.
Qed.

Lemma checkHistory_scan (newPassword : string) (l : list PasswordHistoryEntry.t) (w : World) :
  UserService.checkHistory newPassword l w
  = (w, if existsb (password_matches newPassword) l
        then Rejected UserService.PasswordReused else Resolved tt).
Proof.
  induction l as [|h l IH]; [reflexivity|].
  cbn [UserService.checkHistory existsb]. unfold password_matches at 1.
  destruct (compare newPassword (PasswordHistoryEntry.password h)); [reflexivity | exact IH].
Qed.

Lemma changePassword_accepts (w : World) (userId currentPassword newPassword : string)
  (u : User.t) :
  find (fun v => User.id v == userId) (users w) = Some u ->
  compare currentPassword (User.password u) = true ->
  existsb (password_matches newPassword) (history_of u) = false ->
  let hashed := hash newPassword (entropy w) in
  let updated := PasswordHistoryEntry.mk hashed (toISOString (now w))
                 :: firstn 4 (history_of u) in
  UserService.changePassword userId currentPassword newPassword w
  = (set_users (map (fun v => if User.id v == userId
                              then UserService.password_data hashed updated (now w) v else v)
                    (users w))
               (set_entropy (S (entropy w)) w),
     Resolved "Password updated successfully").
Proof.
  intros Hu Hc Hh hashed updated. unfold UserService.changePassword. step.
  rewrite Hu, Hc. cbn [negb]. fold (history_of u). rewrite checkHistory_scan, Hh.
  cbn [users set_entropy entropy now]. rewrite Hu. reflexivity.
Qed.

Lemma invariant_resolve {A : Type} (I : World -> Prop) (a : A) : invariant I (resolve a).
Proof. intros w Hw. exact Hw. Qed.

Lemma invariant_throw {A : Type} (I : World -> Prop) (e : Error) : invariant I (@throw A e).
Proof. intros w Hw. exact Hw. Qed.

Lemma invariant_bind {A B : Type} (I : World -> Prop) (m : Promise A) (k : A -> Promise B) :
  invariant I m -> (forall a, invariant I (k a)) -> invariant I (bind m k).
Proof.
  intros Hm Hk w Hw. unfold bind. specialize (Hm w Hw).
  destruct (m w) as [w1 [a | e]]; cbn [fst] in *; [apply Hk, Hm | exact Hm].
Qed.

Lemma invariant_tryCatch {A : Type} (I : World -> Prop) (m : Promise A)
  (handler : Error -> Promise A) :
  invariant I m -> (forall e, invariant I (handler e)) -> invariant I (tryCatch m handler).
Proof.
  intros Hm Hh w Hw. unfold tryCatch. specialize (Hm w Hw).
  destruct (m w) as [w1 [a | e]]; cbn [fst] in *; [exact Hm | apply Hh, Hm].
Qed.

Lemma invariant_frame {A : Type} (m : Promise A) :
  (forall w, userSessions (fst (m w)) = userSessions w) -> invariant tokens_unique m.
Proof. intros Hm w Hw. unfold tokens_unique. rewrite Hm. exact Hw. Qed.

Lemma NoDup_tokens_filter (p : UserSession.t -> bool) (l : list UserSession.t) :
  NoDup (map UserSession.token l) -> NoDup (map UserSession.token (filter p l)).
Proof.
  induction l as [|s l IH]; cbn [map filter]; intros Hl; [exact Hl|].
  inversion Hl as [|x xs Hnot Hrest]; subst.
  destruct (p s); [|exact (IH Hrest)].
  cbn [map]. constructor; [|exact (IH Hrest)].
  intros Hin. apply Hnot. apply in_map_iff in Hin. destruct Hin as [s' [Hs' Hin]].
  apply filter_In in Hin. apply in_map_iff. exists s'. tauto.
Qed.

Lemma NoDup_tokens_snoc (s : UserSession.t) (l : list UserSession.t) :
  existsb (token_is (UserSession.token s)) l = false ->
  NoDup (map UserSession.token l) -> NoDup (map UserSession.token (l ++ [s])).
Proof.
  induction l as [|a l IH]; cbn [map app existsb]; intros He Hl.
  - constructor; [intros [] | constructor].
  - apply orb_false_elim in He. destruct He as [Ha He].
    inversion Hl as [|x xs Hnot Hrest]; subst.
    constructor; [|exact (IH He Hrest)].
    rewrite map_app. intros Hin. apply in_app_or in Hin. destruct Hin as [Hin | [Hin | []]].
    + exact (Hnot Hin).
    + unfold token_is in Ha. rewrite Hin, String.eqb_refl in Ha. discriminate.
Qed.

Create HintDb session_inv.

Lemma inv_user_findUnique_id i : invariant tokens_unique (Prisma.user_findUnique_id i).
Proof. intros w Hw. exact Hw. Qed.

Lemma inv_user_findUnique_email e : invariant tokens_unique (Prisma.user_findUnique_email e).
Proof. intros w Hw. exact Hw. Qed.

Lemma inv_user_findFirst e n :
  invariant tokens_unique (Prisma.user_findFirst_email_or_username e n).
Proof. intros w Hw. exact Hw. Qed.

Lemma inv_user_role u : invariant tokens_unique (Prisma.user_role u).
Proof. intros w Hw. exact Hw. Qed.

Lemma inv_role_findFirst n : invariant tokens_unique (Prisma.role_findFirst_name n).
Proof. intros w Hw. exact Hw. Qed.

Lemma inv_Date_now : invariant tokens_unique Date_now.
Proof. intros w Hw. exact Hw. Qed.

Lemma inv_random : invariant tokens_unique random.
Proof. intros w Hw. exact Hw. Qed.

Lemma inv_console_error m e : invariant tokens_unique (console_error m e).
Proof. intros w Hw. exact Hw. Qed.

Lemma inv_user_update i f : invariant tokens_unique (Prisma.user_update i f).
Proof.
  apply invariant_frame. intros w. unfold Prisma.user_update.
  destruct (find _ (users w)); reflexivity.
Qed.

Lemma inv_user_create d : invariant tokens_unique (Prisma.user_create d).
Proof.
  apply invariant_frame. intros w. unfold Prisma.user_create. step.
  destruct (existsb _ _); reflexivity.
Qed.

Lemma inv_company_create n i a : invariant tokens_unique (Prisma.company_create n i a).
Proof.
  apply invariant_frame. intros w. unfold Prisma.company_create. step.
  destruct (existsb _ _); reflexivity.
Qed.

Lemma inv_failedLoginAttempt_create e i a u :
  invariant tokens_unique (Prisma.failedLoginAttempt_create e i a u).
Proof. intros w Hw. exact Hw. Qed.

Lemma inv_failedLoginAttempt_count u g :
  invariant tokens_unique (Prisma.failedLoginAttempt_count u g).
Proof. intros w Hw. exact Hw. Qed.

Lemma inv_failedLoginAttempt_deleteMany t :
  invariant tokens_unique (Prisma.failedLoginAttempt_deleteMany_createdAt_lt t).
Proof. intros w Hw. exact Hw. Qed.

Lemma inv_userActivity_create u a m i g :
  invariant tokens_unique (Prisma.userActivity_create u a m i g).
Proof. intros w Hw. exact Hw. Qed.

Lemma inv_userSession_deleteMany_token t :
  invariant tokens_unique (Prisma.userSession_deleteMany_token t).
Proof. intros w Hw. apply NoDup_tokens_filter, Hw. Qed.

Lemma inv_userSession_deleteMany_userId u :
  invariant tokens_unique (Prisma.userSession_deleteMany_userId u).
Proof. intros w Hw. apply NoDup_tokens_filter, Hw. Qed.

Lemma inv_userSession_deleteMany_expiresAt t :
  invariant tokens_unique (Prisma.userSession_deleteMany_expiresAt_lt t).
Proof. intros w Hw. apply NoDup_tokens_filter, Hw. Qed.

Lemma inv_userSession_delete_token t :
  invariant tokens_unique (Prisma.userSession_delete_token t).
Proof.
  intros w Hw. unfold Prisma.userSession_delete_token.
  destruct (existsb _ _); [apply NoDup_tokens_filter, Hw | exact Hw].
Qed.

Lemma inv_userSession_create u t i a e :
  invariant tokens_unique (Prisma.userSession_create u t i a e).
Proof.
  intros w Hw. unfold Prisma.userSession_create. cbv zeta.
  destruct (existsb _ _) eqn:E; [exact Hw|].
  apply NoDup_tokens_snoc; [exact E | exact Hw].
Qed.

#[local] Hint Resolve invariant_resolve invariant_throw
  inv_user_findUnique_id inv_user_findUnique_email inv_user_findFirst inv_user_role
  inv_role_findFirst inv_Date_now inv_random inv_console_error inv_user_update
  inv_user_create inv_company_create inv_failedLoginAttempt_create
  inv_failedLoginAttempt_count inv_failedLoginAttempt_deleteMany inv_userActivity_create
  inv_userSession_deleteMany_token inv_userSession_deleteMany_userId
  inv_userSession_deleteMany_expiresAt inv_userSession_delete_token
  inv_userSession_create : session_inv.

Ltac inv_step :=
  cbv zeta;
  repeat match goal with
    | |- invariant _ (bind _ _) => apply invariant_bind; [| intro]
    | |- invariant _ (tryCatch _ _) => apply invariant_tryCatch; [| intro]
    | |- invariant _ (match ?x with _ => _ end) => destruct x
    | |- invariant _ _ => solve [auto with session_inv]
    end.

Lemma inv_checkHistory p l : invariant tokens_unique (UserService.checkHistory p l).
Proof. induction l as [|h l IH]; cbn [UserService.checkHistory]; inv_step. Qed.

Lemma inv_trackFailedLoginAttempt e i a :
  invariant tokens_unique (SecurityService.trackFailedLoginAttempt e i a).
Proof. unfold SecurityService.trackFailedLoginAttempt. inv_step. Qed.

Lemma inv_isAccountLocked u : invariant tokens_unique (SecurityService.isAccountLocked u).
Proof. unfold SecurityService.isAccountLocked. inv_step. Qed.

Lemma inv_createSession u t i a :
  invariant tokens_unique (SecurityService.createSession u t i a).
Proof. unfold SecurityService.createSession. inv_step. Qed.

Lemma inv_generateTokens u : invariant tokens_unique (AuthService.generateTokens u).
Proof. unfold AuthService.generateTokens. inv_step. Qed.

#[local] Hint Resolve inv_checkHistory inv_trackFailedLoginAttempt inv_isAccountLocked
  inv_createSession inv_generateTokens : session_inv.

Lemma inv_handle (req : Request) (w : World) : tokens_unique w -> tokens_unique (handle req w).
Proof.
  destruct req; cbn [handle].
  - revert w. change (invariant tokens_unique (AuthService.register data)).
    unfold AuthService.register, SecurityService.trackActivity. inv_step.
  - revert w. change (invariant tokens_unique (AuthService.login data)).
    unfold AuthService.login, SecurityService.trackActivity. inv_step.
  - revert w. change (invariant tokens_unique (AuthService.refreshToken data)).
    unfold AuthService.refreshToken, SecurityService.trackActivity,
      SecurityService.invalidateSession. inv_step.
  - revert w. change (invariant tokens_unique (AuthService.logout refreshToken)).
    unfold AuthService.logout, SecurityService.invalidateSession. inv_step.
  - revert w.
    change (invariant tokens_unique
              (UserService.changePassword userId currentPassword newPassword)).
    unfold UserService.changePassword. inv_step.
  - revert w. change (invariant tokens_unique (SecurityService.invalidateAllSessions userId)).
    unfold SecurityService.invalidateAllSessions. inv_step.
  - revert w. change (invariant tokens_unique SecurityService.cleanupOldRecords).
    unfold SecurityService.cleanupOldRecords. inv_step.
  - intros Hw. exact Hw.
Qed.

Lemma inv_serve (reqs : list Request) (w : World) :
  tokens_unique w -> tokens_unique (serve reqs w).
Proof.
  revert w. induction reqs as [|req reqs IH]; intros w Hw; [exact Hw|].
  cbn [serve fold_left]. apply IH, inv_handle, Hw.
Qed.

Lemma filter_snoc_only (token : string) (s : UserSession.t) (l : list UserSession.t) :
  UserSession.token s = token ->
  filter (token_is token) (filter (fun r => negb (token_is token r)) l ++ [s]) = [s].
Proof.
  intros Hs. rewrite filter_app. cbn [filter]. unfold token_is at 3.
  rewrite Hs, String.eqb_refl.
  replace (filter (token_is token) (filter _ l)) with (@nil UserSession.t); [reflexivity|].
  symmetry. induction l as [|a l IH]; [reflexivity|].
  cbn [filter]. destruct (token_is token a) eqn:E; cbn [negb filter]; [exact IH|].
  rewrite E. exact IH.
Qed.

(** C3. [isAccountLocked] resolves to [true] only while the current instant
    lies before lock-start plus the 15 minutes of the lockout, and then
    leaves the world as it was.  For a locked account it resolves to [true]
    throughout that window; at the first check once the window has elapsed it
    writes the account back to active, with no lock-start and no reason, and
    resolves to [false], as does every later check: the lock is undone by the
    check itself. *)
Theorem isAccountLocked_window (w : World) (userId : string) :
  (forall w', SecurityService.isAccountLocked userId w = (w', Resolved true) ->
     w' = w /\
     exists u d, Prisma.user_findUnique_id userId w = (w, Resolved (Some u)) /\
                 User.accountStatus u = "LOCKED" /\ User.deactivatedAt u = Some d /\
                 now w < d + 15 * 60 * 1000)
  /\
  (forall u d,
     Prisma.user_findUnique_id userId w = (w, Resolved (Some u)) ->
     User.accountStatus u = "LOCKED" -> User.deactivatedAt u = Some d ->
     (now w < d + 15 * 60 * 1000 ->
        SecurityService.isAccountLocked userId w = (w, Resolved true))
     /\
     (d + 15 * 60 * 1000 <= now w ->
        exists w' u',
          SecurityService.isAccountLocked userId w = (w', Resolved false) /\
          Prisma.user_findUnique_id userId w' = (w', Resolved (Some u')) /\
          User.accountStatus u' = "ACTIVE" /\ User.deactivatedAt u' = None /\
          User.deactivationReason u' = None /\
          forall t, SecurityService.isAccountLocked userId (set_now t w')
                    = (set_now t w', Resolved false))).
Proof.
  unfold SecurityService.isAccountLocked. step.
  split.
  - intros w'.
    destruct (find _ (users w)) as [u|] eqn:Hu; [|discriminate].
    destruct (User.accountStatus u == "LOCKED") eqn:Es; [|discriminate].
    destruct (User.deactivatedAt u) as [d|] eqn:Ed; [|discriminate].
    destruct (now w <? d + 900000) eqn:Et.
    + intros E. injection E as <-. split; [reflexivity|].
      exists u, d. apply String.eqb_eq in Es. apply Z.ltb_lt in Et. auto.
    + rewrite Hu. discriminate.
  - intros u d Hu Es Ed. injection Hu as Hu. rewrite Hu.
    apply String.eqb_eq in Es. rewrite Es, Ed. simpl (_ == _). cbv iota. split.
    + intros Ht. apply Z.ltb_lt in Ht. rewrite Ht. reflexivity.
    + intros Ht. apply Z.ltb_ge in Ht. rewrite Ht, Hu.
      eexists. exists (SecurityService.unlock_data u).
      split; [reflexivity|]. simpl.
      rewrite find_update_id by reflexivity. rewrite Hu. simpl.
      repeat split.
Qed.

(** C2. When recording a failed attempt for an existing account brings the
    number of that account's attempts within the trailing 15 minutes to 5 or
    more, the account becomes locked, with the current instant as lock-start
    and a reason; a login that follows before the lockout has run out is
    rejected with the account-locked error, whatever password it presents. *)
Theorem lockout_at_threshold (w : World) (email : string) (ip ua : option string) (u : User.t) :
  Prisma.user_findUnique_email email w = (w, Resolved (Some u)) ->
  5 <= recentAttempts (User.id u) w + 1 ->
  exists w' u',
    SecurityService.trackFailedLoginAttempt email ip ua w = (w', Resolved tt) /\
    failedLoginAttempts w'
    = (failedLoginAttempts w
       ++ [FailedLoginAttempt.mk email ip ua (Some (User.id u)) (now w)])%list /\
    Prisma.user_findUnique_email email w' = (w', Resolved (Some u')) /\
    User.accountStatus u' = "LOCKED" /\
    User.deactivatedAt u' = Some (now w) /\
    User.deactivationReason u' = Some "Too many failed login attempts" /\
    forall (t : Z) (password : string) (ip' ua' : option string),
      t < now w + 15 * 60 * 1000 ->
      AuthService.login (AuthService.mkLoginDto email password ip' ua') (set_now t w')
      = (set_now t w', Rejected AuthService.AccountLocked).
Proof.
  intros Hu Hc. injection Hu as Hu.
  pose proof (trackFailedLoginAttempt_known w email ip ua u Hu) as Ht. cbv zeta in Ht.
  apply Z.leb_le in Hc. rewrite Hc in Ht.
  destruct (find_email_has_id _ _ _ Hu) as [u0 Hu0].
  eexists. exists (SecurityService.lock_data (now w) u).
  split; [exact Ht|]. split; [reflexivity|].
  assert (He : find (fun v => User.email v == email)
                 (map (lock_where (User.id u) (now w)) (users w))
               = Some (SecurityService.lock_data (now w) u)).
  { unfold lock_where. rewrite find_update_email by reflexivity. rewrite Hu. cbn [option_map].
    rewrite String.eqb_refl. reflexivity. }
  split; [unfold Prisma.user_findUnique_email; cbn [users set_users]; rewrite He; reflexivity|].
  split; [reflexivity|]. split; [reflexivity|]. split; [reflexivity|].
  intros t password ip' ua' Hlt.
  unfold AuthService.login. step. cbn [AuthService.login_email users set_now set_users].
  rewrite He.
  rewrite (isAccountLocked_true _ _ (SecurityService.lock_data (now w) u0) (now w)).
  - reflexivity.
  - cbn [users set_now set_users SecurityService.lock_data User.id]. unfold lock_where.
    rewrite find_update_id by reflexivity. rewrite Hu0. reflexivity.
  - reflexivity.
  - reflexivity.
  - cbn [now set_now]. exact Hlt.
Qed.

(** C9. A login against an account that is locked, the lockout window not yet
    elapsed, is rejected with the account-locked error whatever the password,
    and the world after the call is the world before it: no failed attempt is
    recorded, [lastLogin] is not written, no session and no activity row is
    created. *)
Theorem login_locked_frame (w : World) (data : AuthService.ILoginDto) (u u0 : User.t) (d : Z) :
  Prisma.user_findUnique_email (AuthService.login_email data) w = (w, Resolved (Some u)) ->
  Prisma.user_findUnique_id (User.id u) w = (w, Resolved (Some u0)) ->
  User.accountStatus u0 = "LOCKED" ->
  User.deactivatedAt u0 = Some d ->
  now w < d + 15 * 60 * 1000 ->
  AuthService.login data w = (w, Rejected AuthService.AccountLocked).
Proof.
  intros Hu Hu0 Es Ed Ht. injection Hu as Hu. injection Hu0 as Hu0.
  unfold AuthService.login. step. rewrite Hu.
  rewrite (isAccountLocked_true w (User.id u) u0 d Hu0 Es Ed Ht). reflexivity.
Qed.

(** C5, as amended.  For an account that is not currently locked, a login
    with an unknown email and a login with a known email and a wrong password
    are rejected with the same error, and each appends a failed-attempt row
    carrying the email (with no account reference when no account exists). *)
Theorem login_failure_uniform (w : World) (data : AuthService.ILoginDto) :
  let attempt := FailedLoginAttempt.mk (AuthService.login_email data)
                   (AuthService.login_ipAddress data) (AuthService.login_userAgent data) in
  (Prisma.user_findUnique_email (AuthService.login_email data) w = (w, Resolved None) ->
   exists w',
     AuthService.login data w = (w', Rejected AuthService.InvalidCredentials) /\
     failedLoginAttempts w' = (failedLoginAttempts w ++ [attempt None (now w)])%list)
  /\
  (forall u,
     Prisma.user_findUnique_email (AuthService.login_email data) w = (w, Resolved (Some u)) ->
     snd (SecurityService.isAccountLocked (User.id u) w) = Resolved false ->
     compare (AuthService.login_password data) (User.password u) = false ->
     exists w',
       AuthService.login data w = (w', Rejected AuthService.InvalidCredentials) /\
       failedLoginAttempts w'
       = (failedLoginAttempts w ++ [attempt (Some (User.id u)) (now w)])%list).
Proof.
  intros attempt. split.
  - intros Hu. injection Hu as Hu. unfold AuthService.login. step. rewrite Hu.
    rewrite trackFailedLoginAttempt_unknown by exact Hu.
    eexists. split; reflexivity.
  - intros u Hu Hl Hp. injection Hu as Hu. unfold AuthService.login. step. rewrite Hu, Hp.
    cbn [negb].
    destruct (isAccountLocked_cases w (User.id u)) as [[b Hb] | Hb]; rewrite Hb in Hl |- *.
    + injection Hl as ->.
      destruct (trackFailedLoginAttempt_appends w (AuthService.login_email data)
                  (AuthService.login_ipAddress data) (AuthService.login_userAgent data) u Hu)
        as [w' [Ht Ha]].
      rewrite Ht. exists w'. split; [reflexivity | exact Ha].
    + set (w1 := set_users _ w).
      assert (Hu1 : find (fun v => User.email v == AuthService.login_email data) (users w1)
                    = Some (SecurityService.unlock_data u)).
      { subst w1. cbn [users set_users]. unfold unlock_where.
        rewrite find_update_email by reflexivity. rewrite Hu. cbn [option_map].
        rewrite String.eqb_refl. reflexivity. }
      destruct (trackFailedLoginAttempt_appends w1 (AuthService.login_email data)
                  (AuthService.login_ipAddress data) (AuthService.login_userAgent data) _ Hu1)
        as [w' [Ht Ha]].
      rewrite Ht. exists w'. split; [reflexivity | exact Ha].
Qed.

(** C7. A registration whose email or whose username is already taken is
    rejected with the user-already-exists error and leaves the world as it
    was; in particular, after a registration has succeeded, a second one with
    the same email or the same username is rejected so. *)
Theorem register_conflict (w : World) (data : AuthService.IRegisterDto) :
  (forall u,
     In u (users w) ->
     User.email u = AuthService.reg_email data \/
     User.username u = AuthService.reg_username data ->
     AuthService.register data w = (w, Rejected AuthService.UserAlreadyExists))
  /\
  (forall w1 r,
     AuthService.register data w = (w1, Resolved r) ->
     forall (again : AuthService.IRegisterDto) (t : Z),
       AuthService.reg_email again = AuthService.reg_email data \/
       AuthService.reg_username again = AuthService.reg_username data ->
       AuthService.register again (set_now t w1)
       = (set_now t w1, Rejected AuthService.UserAlreadyExists)).
Proof.
  split.
  - intros u. apply register_existing.
  - intros w1 r Hr again t Hsame.
    destruct (register_resolved _ _ _ _ Hr) as [u [Hus [_ [He [Hn _]]]]].
    apply (register_existing _ _ u).
    + cbn [users set_now]. rewrite Hus. apply in_or_app. right. left. reflexivity.
    + destruct Hsame as [E | E]; rewrite E; auto.
Qed.

(** C8. [logout] always resolves.  The sessions carrying the presented token
    are gone afterwards, and that is the only change when there was one; when
    there was none the rejection of the delete is written to the console and
    nothing else changes; a second [logout] with the same token resolves as
    well and again only writes to the console. *)
Theorem logout_always_succeeds (w : World) (token : string) :
  exists w',
    AuthService.logout token w = (w', Resolved tt) /\
    userSessions w'
    = filter (fun s => negb (UserSession.token s == token)) (userSessions w) /\
    (existsb (fun s => UserSession.token s == token) (userSessions w) = true ->
     w' = set_userSessions
            (filter (fun s => negb (UserSession.token s == token)) (userSessions w)) w) /\
    (existsb (fun s => UserSession.token s == token) (userSessions w) = false ->
     w' = set_console
            (console w
             ++ [("Error during logout, refresh token might not exist:", Prisma.P2025)])
            w) /\
    forall t,
      AuthService.logout token (set_now t w')
      = (set_console
           (console w'
            ++ [("Error during logout, refresh token might not exist:", Prisma.P2025)])
           (set_now t w'),
         Resolved tt).
Proof.
  assert (Hf : forall l : list UserSession.t,
             existsb (fun s => UserSession.token s == token)
                     (filter (fun s => negb (UserSession.token s == token)) l) = false).
  { induction l as [|s l IH]; [reflexivity|]. cbn [filter].
    destruct (UserSession.token s == token) eqn:E; cbn [negb existsb]; [exact IH|].
    rewrite E. exact IH. }
  assert (Hn : forall l : list UserSession.t,
             existsb (fun s => UserSession.token s == token) l = false ->
             filter (fun s => negb (UserSession.token s == token)) l = l).
  { induction l as [|s l IH]; [reflexivity|]. cbn [filter existsb]. intros E.
    apply orb_false_elim in E. destruct E as [E1 E2]. rewrite E1. cbn [negb].
    rewrite (IH E2). reflexivity. }
  unfold AuthService.logout, SecurityService.invalidateSession. step.
  destruct (existsb _ (userSessions w)) eqn:E.
  - eexists. split; [reflexivity|]. cbn [userSessions set_userSessions set_now].
    split; [reflexivity|]. split; [reflexivity|]. split; [discriminate|].
    intros t. rewrite Hf. reflexivity.
  - eexists. split; [reflexivity|]. cbn [userSessions set_console set_now console].
    split; [symmetry; apply Hn, E|]. split; [discriminate|]. split; [reflexivity|].
    intros t. rewrite E. reflexivity.
Qed.

(** C1, as amended.  With a refresh token that verifies and names an existing
    account, the refresh flow succeeds exactly when a session row carries the
    presented token: it then removes that row, issues a new token pair, stores
    a session for the new refresh token and appends the activity; when no row
    carries the token the flow is rejected with the invalid-refresh-token
    error and the world is unchanged. *)
Theorem refreshToken_needs_session (w : World) (data : AuthService.IRefreshTokenDto)
  (userId : string) (u : User.t) :
  let old := AuthService.refresh_refreshToken data in
  let ip := AuthService.refresh_ipAddress data in
  let ua := AuthService.refresh_userAgent data in
  verify old JWT_REFRESH_SECRET (now w) = Some userId ->
  Prisma.user_findUnique_id userId w = (w, Resolved (Some u)) ->
  (existsb (token_is old) (userSessions w) = false ->
   AuthService.refreshToken data w = (w, Rejected AuthService.InvalidRefreshToken))
  /\
  (existsb (token_is old) (userSessions w) = true ->
   exists w' r,
     AuthService.refreshToken data w = (w', Resolved r) /\
     AuthService.accessToken r
     = sign (AccessPayload (User.id u) (User.roleId u)) JWT_SECRET JWT_EXPIRES_IN (now w) /\
     AuthService.refreshToken_ r
     = sign (RefreshPayload (User.id u)
               (Number_toString (now w) ++ "_" ++ randomBase36 (entropy w)))
            JWT_REFRESH_SECRET JWT_REFRESH_EXPIRES_IN (now w) /\
     userSessions w'
     = (filter (fun s => negb (token_is (AuthService.refreshToken_ r) s))
               (filter (fun s => negb (token_is old s)) (userSessions w))
        ++ [UserSession.mk (User.id u) (AuthService.refreshToken_ r) ip ua
              (now w + 24 * 60 * 60 * 1000) (now w)])%list /\
     userActivities w'
     = (userActivities w
        ++ [UserActivity.mk (User.id u) "TOKEN_REFRESHED" (User.username u) ip ua (now w)])%list /\
     users w' = users w).
Proof.
  intros old ip ua Hv Hu. injection Hu as Hu. subst old ip ua. unfold token_is.
  unfold AuthService.refreshToken, AuthService.generateTokens,
    SecurityService.invalidateSession, SecurityService.trackActivity.
  step. rewrite Hv, Hu. split; intros Hs; rewrite Hs.
  - reflexivity.
  - rewrite createSession_run. cbv beta iota.
    eexists. eexists. split; [reflexivity|].
    cbn. repeat split.
Qed.

(** C4. [changePassword] is rejected with not-found when the account is
    missing, with the current-password error when [currentPassword] does not
    match the stored hash, and with the password-reuse error when
    [newPassword] matches an entry of the stored history; otherwise it
    resolves, the stored password is the hash of [newPassword], the history is
    the new entry followed by the first four of the old ones, hence of at most
    five entries, and [lastPasswordChange] is the current instant. *)
Theorem changePassword_contract (w : World) (userId currentPassword newPassword : string) :
  (Prisma.user_findUnique_id userId w = (w, Resolved None) ->
   UserService.changePassword userId currentPassword newPassword w
   = (w, Rejected UserService.UserNotFound))
  /\
  (forall u,
     Prisma.user_findUnique_id userId w = (w, Resolved (Some u)) ->
     (compare currentPassword (User.password u) = false ->
      UserService.changePassword userId currentPassword newPassword w
      = (w, Rejected UserService.CurrentPasswordIncorrect))
     /\
     (compare currentPassword (User.password u) = true ->
      (exists h, In h (history_of u) /\
                 compare newPassword (PasswordHistoryEntry.password h) = true) ->
      UserService.changePassword userId currentPassword newPassword w
      = (w, Rejected UserService.PasswordReused))
     /\
     (compare currentPassword (User.password u) = true ->
      (forall h, In h (history_of u) ->
                 compare newPassword (PasswordHistoryEntry.password h) = false) ->
      exists w' u',
        UserService.changePassword userId currentPassword newPassword w
        = (w', Resolved "Password updated successfully") /\
        Prisma.user_findUnique_id userId w' = (w', Resolved (Some u')) /\
        User.password u' = hash newPassword (entropy w) /\
        User.passwordHistory u'
        = Some (PasswordHistoryEntry.mk (hash newPassword (entropy w)) (toISOString (now w))
                :: firstn 4 (history_of u)) /\
        (List.length (history_of u') <= 5)%nat /\
        User.lastPasswordChange u' = Some (now w))).
Proof.
  split.
  - intros Hu. injection Hu as Hu. unfold UserService.changePassword. step.
    rewrite Hu. reflexivity.
  - intros u Hu. injection Hu as Hu. split; [|split].
    + intros Hc. unfold UserService.changePassword. step. rewrite Hu, Hc. reflexivity.
    + intros Hc [h [Hin Hm]]. unfold UserService.changePassword. step.
      rewrite Hu, Hc. cbn [negb]. fold (history_of u). rewrite checkHistory_scan.
      replace (existsb _ _) with true; [reflexivity|].
      symmetry. apply existsb_exists. exists h. auto.
    + intros Hc Hno.
      assert (Hh : existsb (password_matches newPassword) (history_of u) = false).
      { destruct (existsb _ _) eqn:E; [|reflexivity].
        apply existsb_exists in E. destruct E as [h [Hin Hm]].
        unfold password_matches in Hm. rewrite (Hno h Hin) in Hm. discriminate. }
      rewrite (changePassword_accepts w userId currentPassword newPassword u Hu Hc Hh).
      eexists. eexists. split; [reflexivity|].
      unfold Prisma.user_findUnique_id. cbn [users set_users set_entropy].
      rewrite find_update_id by reflexivity. rewrite Hu. cbn [option_map].
      split; [reflexivity|]. split; [reflexivity|]. split; [reflexivity|].
      split; [|reflexivity].
      unfold history_of at 1. cbn [User.passwordHistory UserService.password_data List.length].
      pose proof (firstn_le_length 4 (history_of u)). lia.
Qed.

(** C10. The new password is never compared with the current hash: for an
    account with an empty history, [changePassword] with the new password
    equal to the current one resolves; and as registration stores no history,
    this is the case for an account right after it registered. *)
Theorem changePassword_ignores_current_hash (w : World) :
  (forall (userId password : string) (u : User.t),
     Prisma.user_findUnique_id userId w = (w, Resolved (Some u)) ->
     history_of u = [] ->
     compare password (User.password u) = true ->
     exists w',
       UserService.changePassword userId password password w
       = (w', Resolved "Password updated successfully"))
  /\
  (forall (data : AuthService.IRegisterDto) (w1 : World) (r : AuthService.IAuthResponse)
          (t : Z),
     AuthService.register data w = (w1, Resolved r) ->
     compare (AuthService.reg_password data)
             (hash (AuthService.reg_password data) (entropy w)) = true ->
     exists u w2,
       Prisma.user_findUnique_id (AuthService.sum_id (AuthService.user r)) (set_now t w1)
       = (set_now t w1, Resolved (Some u)) /\
       User.passwordHistory u = None /\
       UserService.changePassword (AuthService.sum_id (AuthService.user r))
         (AuthService.reg_password data) (AuthService.reg_password data) (set_now t w1)
       = (w2, Resolved "Password updated successfully")).
Proof.
  split.
  - intros userId password u Hu Hh Hc. injection Hu as Hu. eexists.
    apply (changePassword_accepts w userId password password u Hu Hc).
    rewrite Hh. reflexivity.
  - intros data w1 r t Hr Hc.
    destruct (register_resolved _ _ _ _ Hr) as [u [Hus [Hid [_ [_ [Hp [Hh Hnew]]]]]]].
    assert (Hu : find (fun v => User.id v == AuthService.sum_id (AuthService.user r))
                      (users (set_now t w1)) = Some u).
    { cbn [users set_now]. rewrite Hus, <- Hid. apply find_snoc_new; [exact Hnew | reflexivity]. }
    exists u. eexists. split; [unfold Prisma.user_findUnique_id; rewrite Hu; reflexivity|].
    split; [exact Hh|].
    apply (changePassword_accepts _ _ _ _ u Hu).
    + rewrite Hp. exact Hc.
    + unfold history_of. rewrite Hh. reflexivity.
Qed.

(** C6. [createSession] always resolves: the rows carrying the token are
    removed, then one row is added, so exactly one row carries the token
    afterwards, and that row expires 24 hours after its creation.  Token
    uniqueness is kept by [createSession] and by every sequence of calls. *)
Theorem createSession_replaces (w : World) (userId token : string) (ip ua : option string) :
  (exists s w',
     SecurityService.createSession userId token ip ua w = (w', Resolved s) /\
     UserSession.userId s = userId /\
     UserSession.token s = token /\
     UserSession.createdAt s = now w /\
     UserSession.expiresAt s = UserSession.createdAt s + 24 * 60 * 60 * 1000 /\
     userSessions w'
     = (filter (fun r => negb (token_is token r)) (userSessions w) ++ [s])%list /\
     filter (token_is token) (userSessions w') = [s])
  /\
  (tokens_unique w ->
   tokens_unique (fst (SecurityService.createSession userId token ip ua w)) /\
   forall reqs, tokens_unique (serve reqs w)).
Proof.
  split.
  - rewrite createSession_run. eexists. eexists. split; [reflexivity|].
    cbn [UserSession.userId UserSession.token UserSession.createdAt UserSession.expiresAt
         userSessions set_userSessions].
    repeat (split; [reflexivity|]).
    apply filter_snoc_only. reflexivity.
  - intros Hw. split; [apply inv_createSession, Hw|].
    intros reqs. apply inv_serve, Hw.
Qed.

(** *** Further properties *)

Ltac run :=
  cbv beta iota zeta delta
    [bind resolve throw tryCatch Date_now random console_error
     Prisma.user_findUnique_id Prisma.user_findUnique_email
     Prisma.user_findFirst_email_or_username Prisma.user_update Prisma.user_role
     Prisma.role_findFirst_name Prisma.failedLoginAttempt_create
     Prisma.failedLoginAttempt_count Prisma.userSession_deleteMany_token
     Prisma.userSession_delete_token Prisma.userSession_create
     Prisma.userActivity_create Prisma.userSession_findMany
     Prisma.userSession_deleteMany_userId Prisma.userSession_deleteMany_expiresAt_lt
     Prisma.failedLoginAttempt_deleteMany_createdAt_lt
     SecurityService.invalidateSession SecurityService.invalidateAllSessions
     SecurityService.trackActivity SecurityService.getUserSessions
     SecurityService.cleanupOldRecords
     SecurityService.LOCKOUT_DURATION SecurityService.MAX_FAILED_ATTEMPTS
     SecurityService.SESSION_EXPIRY];
  change (15 * 60 * 1000) with 900000;
  change (24 * 60 * 60 * 1000) with 86400000.


Lemma insert_createdAt_desc_perm (s : UserSession.t) (l : list UserSession.t) :
  Permutation (Prisma.insert_createdAt_desc s l) (s :: l).
Proof.
  induction l as [|r l IH]; cbn [Prisma.insert_createdAt_desc]; [reflexivity|].
  destruct (UserSession.createdAt s <? UserSession.createdAt r); [|reflexivity].
  rewrite IH. apply perm_swap.
Qed.

Lemma orderBy_createdAt_desc_perm (l : list UserSession.t) :
  Permutation (Prisma.orderBy_createdAt_desc l) l.
Proof.
  induction l as [|s l IH]; cbn [Prisma.orderBy_createdAt_desc fold_right]; [reflexivity|].
  rewrite insert_createdAt_desc_perm. apply perm_skip, IH.
Qed.

Lemma insert_createdAt_desc_sorted (s : UserSession.t) (l : list UserSession.t) :
  StronglySorted newer_first l -> StronglySorted newer_first (Prisma.insert_createdAt_desc s l).
Proof.
  induction l as [|r l IH]; cbn [Prisma.insert_createdAt_desc]; intros Hl.
  - constructor; [constructor | constructor].
  - inversion Hl as [|x xs Hxs Hall]; subst.
    destruct (UserSession.createdAt s <? UserSession.createdAt r) eqn:E.
    + apply Z.ltb_lt in E. constructor; [exact (IH Hxs)|].
      apply Forall_forall. intros y Hy.
      apply (Permutation_in _ (insert_createdAt_desc_perm s l)) in Hy.
      destruct Hy as [<- | Hy]; [unfold newer_first; lia|].
      exact (proj1 (Forall_forall _ _) Hall y Hy).
    + apply Z.ltb_ge in E. constructor; [exact Hl|].
      constructor; [exact E|].
      apply Forall_forall. intros y Hy.
      pose proof (proj1 (Forall_forall _ _) Hall y Hy) as Hry.
      unfold newer_first in *. lia.
Qed.

Lemma orderBy_createdAt_desc_sorted (l : list UserSession.t) :
  StronglySorted newer_first (Prisma.orderBy_createdAt_desc l).
Proof.
  induction l as [|s l IH]; cbn [Prisma.orderBy_createdAt_desc fold_right]; [constructor|].
  apply insert_createdAt_desc_sorted, IH.
Qed.

Lemma getUserSessions_run (w : World) (userId : string) :
  SecurityService.getUserSessions userId w
  = (w, Resolved (Prisma.orderBy_createdAt_desc
                    (filter (active_for userId (now w)) (userSessions w)))).
Proof. reflexivity. Qed.

(** X1. [getUserSessions] lists exactly the user's sessions that expire after
    the current instant, newest first, and leaves the world as it was. *)
Theorem getUserSessions_active_newest_first (w : World) (userId : string) :
  exists l,
    SecurityService.getUserSessions userId w = (w, Resolved l) /\
    StronglySorted newer_first l /\
    Permutation l (filter (active_for userId (now w)) (userSessions w)) /\
    forall s,
      In s l <->
      In s (userSessions w) /\ UserSession.userId s = userId /\ now w < UserSession.expiresAt s.
Proof.
  rewrite getUserSessions_run. eexists. split; [reflexivity|].
  split; [apply orderBy_createdAt_desc_sorted|].
  split; [apply orderBy_createdAt_desc_perm|].
  intros s. split.
  - intros Hs. apply (Permutation_in _ (orderBy_createdAt_desc_perm _)) in Hs.
    apply filter_In in Hs. destruct Hs as [Hin Ha]. unfold active_for in Ha.
    apply andb_prop in Ha. destruct Ha as [Hu Ht].
    apply String.eqb_eq in Hu. apply Z.ltb_lt in Ht. auto.
  - intros [Hin [Hu Ht]].
    apply (Permutation_in _ (Permutation_sym (orderBy_createdAt_desc_perm _))).
    apply filter_In. split; [exact Hin|]. unfold active_for.
    rewrite Hu, String.eqb_refl. apply Z.ltb_lt in Ht. rewrite Ht. reflexivity.
Qed.

(** X2. A session that was just created is listed by [getUserSessions] for
    its user at every instant before its expiry, and it is the only listed
    session with its token. *)
Theorem createSession_then_listed (w : World) (userId token : string)
  (ip ua : option string) (t : Z) :
  t < now w + 24 * 60 * 60 * 1000 ->
  exists s w' l,
    SecurityService.createSession userId token ip ua w = (w', Resolved s) /\
    SecurityService.getUserSessions userId (set_now t w') = (set_now t w', Resolved l) /\
    In s l /\
    forall r, In r l -> UserSession.token r = token -> r = s.
Proof.
  intros Ht. rewrite createSession_run. eexists. eexists. eexists.
  split; [reflexivity|]. rewrite getUserSessions_run. split; [reflexivity|].
  cbn [userSessions set_userSessions set_now now]. split.
  - apply (Permutation_in _ (Permutation_sym (orderBy_createdAt_desc_perm _))).
    apply filter_In. split; [apply in_or_app; right; left; reflexivity|].
    unfold active_for. cbn [UserSession.userId UserSession.expiresAt].
    rewrite String.eqb_refl. change (24 * 60 * 60 * 1000) with 86400000 in Ht.
    apply Z.ltb_lt in Ht. rewrite Ht. reflexivity.
  - intros r Hr Htok.
    apply (Permutation_in _ (orderBy_createdAt_desc_perm _)) in Hr.
    apply filter_In in Hr. destruct Hr as [Hr _].
    apply in_app_or in Hr. destruct Hr as [Hr | [Hr | []]]; [|symmetry; exact Hr].
    apply filter_In in Hr. destruct Hr as [_ Hr].
    rewrite Htok, String.eqb_refl in Hr. discriminate.
Qed.

(** X3. [invalidateAllSessions] always resolves and removes exactly the
    user's sessions: afterwards [getUserSessions] lists none for that user,
    at any instant, and lists for every other user what it listed before. *)
Theorem invalidateAllSessions_clears (w : World) (userId : string) :
  exists w',
    SecurityService.invalidateAllSessions userId w = (w', Resolved tt) /\
    (forall s, In s (userSessions w') <->
               In s (userSessions w) /\ UserSession.userId s <> userId) /\
    (forall t, SecurityService.getUserSessions userId (set_now t w')
               = (set_now t w', Resolved [])) /\
    (forall other t,
       other <> userId ->
       snd (SecurityService.getUserSessions other (set_now t w'))
       = snd (SecurityService.getUserSessions other (set_now t w))).
Proof.
  eexists. split; [reflexivity|]. cbn [userSessions set_userSessions].
  split; [|split].
  - intros s. rewrite filter_In. split.
    + intros [Hin Hn]. split; [exact Hin|]. intros E. rewrite E, String.eqb_refl in Hn.
      discriminate.
    + intros [Hin Hn]. split; [exact Hin|].
      destruct (UserSession.userId s == userId) eqn:E; [|reflexivity].
      apply String.eqb_eq in E. contradiction.
  - intros t. rewrite getUserSessions_run. cbn [userSessions set_userSessions set_now now].
    replace (filter (active_for userId t) _) with (@nil UserSession.t); [reflexivity|].
    symmetry. induction (userSessions w) as [|s l IH]; [reflexivity|].
    cbn [filter]. destruct (UserSession.userId s == userId) eqn:E; cbn [negb]; [exact IH|].
    cbn [filter]. unfold active_for at 1. rewrite E. exact IH.
  - intros other t Hne. rewrite !getUserSessions_run.
    cbn [snd userSessions set_userSessions set_now now].
    f_equal. f_equal.
    induction (userSessions w) as [|s l IH]; [reflexivity|].
    cbn [filter]. destruct (UserSession.userId s == userId) eqn:E; cbn [negb filter].
    + unfold active_for at 2. apply String.eqb_eq in E. rewrite E.
      replace (userId == other) with false; [exact IH|].
      symmetry. apply String.eqb_neq. auto.
    + destruct (active_for other t s); [f_equal|]; exact IH.
Qed.

Lemma existsb_token_filtered (token : string) (l : list UserSession.t) :
  existsb (token_is token) (filter (fun s => negb (UserSession.token s == token)) l) = false.
Proof.
  induction l as [|s l IH]; [reflexivity|]. cbn [filter].
  destruct (UserSession.token s == token) eqn:E; cbn [negb existsb]; [exact IH|].
  unfold token_is at 1. rewrite E. exact IH.
Qed.

(** X4. [invalidateSession] is rejected with P2025 and changes nothing when
    no session carries the token; otherwise it removes exactly the sessions
    with the token, leaves the users alone, and a second call with the same
    token is rejected. *)
Theorem invalidateSession_missing_or_removed (w : World) (token : string) :
  (existsb (token_is token) (userSessions w) = false ->
   SecurityService.invalidateSession token w = (w, Rejected Prisma.P2025))
  /\
  (existsb (token_is token) (userSessions w) = true ->
   exists w',
     SecurityService.invalidateSession token w = (w', Resolved tt) /\
     (forall s, In s (userSessions w') <->
                In s (userSessions w) /\ UserSession.token s <> token) /\
     users w' = users w /\
     forall t, SecurityService.invalidateSession token (set_now t w')
               = (set_now t w', Rejected Prisma.P2025)).
Proof.
  unfold token_is. split; intros E.
  - run. rewrite E. reflexivity.
  - run. rewrite E. eexists. split; [reflexivity|].
    cbn [userSessions set_userSessions users set_now]. split; [|split; [reflexivity|]].
    + intros s. rewrite filter_In. split.
      * intros [Hin Hn]. split; [exact Hin|]. intros Es.
        rewrite Es, String.eqb_refl in Hn. discriminate.
      * intros [Hin Hn]. split; [exact Hin|].
        destruct (UserSession.token s == token) eqn:Es; [|reflexivity].
        apply String.eqb_eq in Es. contradiction.
    + intros t. pose proof (existsb_token_filtered token (userSessions w)) as Hf.
      unfold token_is in Hf. rewrite Hf. reflexivity.
Qed.

Lemma cleanupOldRecords_run (w : World) :
  SecurityService.cleanupOldRecords w
  = (set_failedLoginAttempts
       (filter (fun a => negb (FailedLoginAttempt.createdAt a <? now w - 86400000))
               (failedLoginAttempts w))
       (set_userSessions
          (filter (fun s => negb (UserSession.expiresAt s <? now w)) (userSessions w)) w),
     Resolved tt).
Proof. reflexivity. Qed.

(** X5. [cleanupOldRecords] always resolves; it keeps exactly the sessions
    that have not expired before the current instant and the failed attempts
    of the last 24 hours, leaves users and activities alone, changes no
    list of active sessions, and running it again changes nothing more. *)
Theorem cleanupOldRecords_sweeps (w : World) :
  exists w',
    SecurityService.cleanupOldRecords w = (w', Resolved tt) /\
    (forall s, In s (userSessions w') <->
               In s (userSessions w) /\ now w <= UserSession.expiresAt s) /\
    (forall a, In a (failedLoginAttempts w') <->
               In a (failedLoginAttempts w) /\
               now w - 24 * 60 * 60 * 1000 <= FailedLoginAttempt.createdAt a) /\
    users w' = users w /\ userActivities w' = userActivities w /\
    (forall userId, SecurityService.getUserSessions userId w'
                    = (w', snd (SecurityService.getUserSessions userId w))) /\
    SecurityService.cleanupOldRecords w' = (w', Resolved tt).
Proof.
  rewrite cleanupOldRecords_run. eexists. split; [reflexivity|].
  cbn [userSessions failedLoginAttempts set_userSessions set_failedLoginAttempts users
       userActivities].
  split; [|split; [|split; [reflexivity|split; [reflexivity|split]]]].
  - intros s. rewrite filter_In, negb_true_iff, Z.ltb_ge. reflexivity.
  - intros a. rewrite filter_In, negb_true_iff, Z.ltb_ge. reflexivity.
  - intros userId. rewrite !getUserSessions_run.
    cbn [userSessions set_userSessions set_failedLoginAttempts now snd].
    f_equal. f_equal. f_equal.
    induction (userSessions w) as [|s l IH]; [reflexivity|].
    cbn [filter]. destruct (UserSession.expiresAt s <? now w) eqn:E; cbn [negb filter].
    + unfold active_for at 2. apply Z.ltb_lt in E.
      replace (now w <? UserSession.expiresAt s) with false
        by (symmetry; apply Z.ltb_ge; lia).
      rewrite andb_false_r. exact IH.
    + destruct (active_for userId (now w) s); [f_equal|]; exact IH.
  - rewrite cleanupOldRecords_run.
    cbn [userSessions failedLoginAttempts set_userSessions set_failedLoginAttempts now].
    f_equal.
    assert (Hidem : forall (A : Type) (p : A -> bool) (l : list A),
               filter p (filter p l) = filter p l).
    { intros A p l. induction l as [|x l IH]; [reflexivity|].
      cbn [filter]. destruct (p x) eqn:E; [|exact IH].
      cbn [filter]. rewrite E, IH. reflexivity. }
    rewrite !Hidem. reflexivity.
Qed.

(** X6. The sweep does not touch lockout: the number of recent attempts of
    an account and the answer of [isAccountLocked] are the same after
    [cleanupOldRecords] as before. *)
Theorem cleanupOldRecords_keeps_lockout (w : World) (userId : string) :
  recentAttempts userId (fst (SecurityService.cleanupOldRecords w)) = recentAttempts userId w /\
  snd (SecurityService.isAccountLocked userId (fst (SecurityService.cleanupOldRecords w)))
  = snd (SecurityService.isAccountLocked userId w).
Proof.
  rewrite cleanupOldRecords_run. cbn [fst]. split.
  - unfold recentAttempts.
    cbn [failedLoginAttempts set_failedLoginAttempts set_userSessions now].
    change (15 * 60 * 1000) with 900000. f_equal. f_equal.
    induction (failedLoginAttempts w) as [|a l IH]; [reflexivity|].
    cbn [filter].
    destruct (FailedLoginAttempt.createdAt a <? now w - 86400000) eqn:E; cbn [negb filter].
    + replace (Prisma.attempt_matches userId (now w - 900000) a) with false; [exact IH|].
      symmetry. unfold Prisma.attempt_matches.
      destruct (FailedLoginAttempt.userId a); [|reflexivity].
      apply Z.ltb_lt in E.
      replace (now w - 900000 <=? FailedLoginAttempt.createdAt a) with false
        by (symmetry; apply Z.leb_gt; lia).
      apply andb_false_r.
    + destruct (Prisma.attempt_matches userId (now w - 900000) a); [f_equal|]; exact IH.
  - set (w1 := set_failedLoginAttempts _ _).
    unfold SecurityService.isAccountLocked. run.
    change (users w1) with (users w). change (now w1) with (now w).
    destruct (find _ (users w)) as [u|]; [|reflexivity].
    destruct (User.accountStatus u == "LOCKED"); [|reflexivity].
    destruct (User.deactivatedAt u) as [d|]; [|reflexivity]. cbv beta.
    change (now w1) with (now w).
    destruct (now w <? d + 900000); [reflexivity|].
    change (users w1) with (users w).
    destruct (find _ (users w)); reflexivity.
Qed.



Lemma generateTokens_run (u : User.t) (w : World) :
  AuthService.generateTokens u w
  = (set_entropy (S (entropy w)) w, Resolved (issued_tokens u w)).
Proof. reflexivity. Qed.

Lemma find_id_is (i : string) (l : list User.t) (u : User.t) :
  find (fun v => User.id v == i) l = Some u -> User.id u = i.
Proof. intros Hu. apply find_some in Hu. apply String.eqb_eq, Hu. Qed.

Lemma login_granted (w w1 : World) (data : AuthService.ILoginDto) (u u1 : User.t) :
  find (fun v => User.email v == AuthService.login_email data) (users w) = Some u ->
  SecurityService.isAccountLocked (User.id u) w = (w1, Resolved false) ->
  find (fun v => User.id v == User.id u) (users w1) = Some u1 ->
  compare (AuthService.login_password data) (User.password u) = true ->
  let tokens := issued_tokens u w1 in
  AuthService.login data w
  = (set_userActivities
       (userActivities w1
        ++ [UserActivity.mk (User.id u) "USER_LOGGED_IN" (User.username u)
              (AuthService.login_ipAddress data) (AuthService.login_userAgent data) (now w1)])
       (set_userSessions
          (filter (fun s => negb (UserSession.token s == snd tokens)) (userSessions w1)
           ++ [UserSession.mk (User.id u) (snd tokens) (AuthService.login_ipAddress data)
                 (AuthService.login_userAgent data) (now w1 + 86400000) (now w1)])
          (set_entropy (S (entropy w1))
             (set_users
                (map (fun v => if User.id v == User.id u
                               then AuthService.lastLogin_data (now w1) v else v)
                     (users w1))
                w1))),
     Resolved (AuthService.mkAuthResponse (fst tokens) (snd tokens)
                 (AuthService.summary u (role_of u w)))).
Proof.
  intros Hu Hl Hu1 Hc tokens. unfold AuthService.login. run.
  rewrite Hu, Hl, Hc. cbn [negb]. cbv beta iota. rewrite Hu1.
  rewrite generateTokens_run. cbv beta iota. rewrite createSession_run.
  reflexivity.
Qed.

Lemma isAccountLocked_expired (w : World) (userId : string) (u : User.t) (d : Z) :
  find (fun v => User.id v == userId) (users w) = Some u ->
  User.accountStatus u = "LOCKED" -> User.deactivatedAt u = Some d ->
  d + 900000 <= now w ->
  SecurityService.isAccountLocked userId w
  = (set_users (map (unlock_where userId) (users w)) w, Resolved false).
Proof.
  intros Hu Es Ed Ht. unfold SecurityService.isAccountLocked. run.
  rewrite Hu, Es, Ed. simpl (_ == _). cbv beta iota.
  apply Z.ltb_ge in Ht. rewrite Ht, Hu. reflexivity.
Qed.

Lemma isAccountLocked_idle (w : World) (userId : string) (u : User.t) :
  find (fun v => User.id v == userId) (users w) = Some u ->
  User.accountStatus u <> "LOCKED" \/ User.deactivatedAt u = None ->
  SecurityService.isAccountLocked userId w = (w, Resolved false).
Proof.
  intros Hu Hs. unfold SecurityService.isAccountLocked. run. rewrite Hu.
  destruct Hs as [Hs | Hs].
  - apply String.eqb_neq in Hs. rewrite Hs. reflexivity.
  - rewrite Hs. destruct (User.accountStatus u == "LOCKED"); reflexivity.
Qed.

Lemma login_resolves_when_unlocked (w : World) (data : AuthService.ILoginDto) (u : User.t) :
  find (fun v => User.email v == AuthService.login_email data) (users w) = Some u ->
  snd (SecurityService.isAccountLocked (User.id u) w) = Resolved false ->
  compare (AuthService.login_password data) (User.password u) = true ->
  exists w' r u1,
    AuthService.login data w = (w', Resolved r) /\
    r = AuthService.mkAuthResponse (fst (issued_tokens u w)) (snd (issued_tokens u w))
          (AuthService.summary u (role_of u w)) /\
    userSessions w'
    = (filter (fun s => negb (token_is (snd (issued_tokens u w)) s)) (userSessions w)
       ++ [UserSession.mk (User.id u) (snd (issued_tokens u w))
             (AuthService.login_ipAddress data) (AuthService.login_userAgent data)
             (now w + 86400000) (now w)])%list /\
    userActivities w'
    = (userActivities w
       ++ [UserActivity.mk (User.id u) "USER_LOGGED_IN" (User.username u)
             (AuthService.login_ipAddress data) (AuthService.login_userAgent data)
             (now w)])%list /\
    failedLoginAttempts w' = failedLoginAttempts w /\
    now w' = now w /\
    find (fun v => User.id v == User.id u)
         (users (fst (SecurityService.isAccountLocked (User.id u) w))) = Some u1 /\
    find (fun v => User.id v == User.id u) (users w')
    = Some (AuthService.lastLogin_data (now w) u1).
Proof.
  intros Hu Hl Hc.
  destruct (find_email_has_id _ _ _ Hu) as [u0 Hu0].
  destruct (isAccountLocked_cases w (User.id u)) as [[b Hb] | Hb]; rewrite Hb in Hl |- *;
    cbn [snd fst] in *.
  - injection Hl as ->.
    rewrite (login_granted w w data u u0 Hu Hb Hu0 Hc). cbv zeta.
    eexists. eexists. exists u0. split; [reflexivity|].
    cbn [userSessions userActivities failedLoginAttempts now users set_users set_entropy
         set_userSessions set_userActivities].
    repeat (split; [reflexivity|]). split; [exact Hu0|].
    rewrite find_update_id by reflexivity. rewrite Hu0. reflexivity.
  - assert (Hu1 : find (fun v => User.id v == User.id u)
                       (users (set_users (map (unlock_where (User.id u)) (users w)) w))
                  = Some (SecurityService.unlock_data u0)).
    { cbn [users set_users]. unfold unlock_where.
      rewrite find_update_id by reflexivity. rewrite Hu0. reflexivity. }
    rewrite (login_granted w _ data u _ Hu Hb Hu1 Hc). cbv zeta.
    eexists. eexists. exists (SecurityService.unlock_data u0). split; [reflexivity|].
    cbn [userSessions userActivities failedLoginAttempts now users set_users set_entropy
         set_userSessions set_userActivities] in *.
    repeat (split; [reflexivity|]). split; [exact Hu1|].
    rewrite find_update_id by reflexivity. rewrite Hu1. reflexivity.
Qed.

(** X8. A login with the right password succeeds for every account whose
    status is not LOCKED (or that has no lock-start), whatever else the
    status is: it returns the issued token pair and the account summary,
    stores a session for the refresh token that expires in 24 hours, appends
    the USER_LOGGED_IN activity, records no failed attempt and sets
    [lastLogin]. *)
Theorem login_grants_session (w : World) (data : AuthService.ILoginDto) (u u0 : User.t) :
  Prisma.user_findUnique_email (AuthService.login_email data) w = (w, Resolved (Some u)) ->
  Prisma.user_findUnique_id (User.id u) w = (w, Resolved (Some u0)) ->
  User.accountStatus u0 <> "LOCKED" \/ User.deactivatedAt u0 = None ->
  compare (AuthService.login_password data) (User.password u) = true ->
  exists w' r,
    AuthService.login data w = (w', Resolved r) /\
    AuthService.accessToken r = fst (issued_tokens u w) /\
    AuthService.refreshToken_ r = snd (issued_tokens u w) /\
    AuthService.user r = AuthService.summary u (role_of u w) /\
    userSessions w'
    = (filter (fun x => negb (token_is (AuthService.refreshToken_ r) x)) (userSessions w)
       ++ [UserSession.mk (User.id u) (AuthService.refreshToken_ r)
             (AuthService.login_ipAddress data) (AuthService.login_userAgent data)
             (now w + 24 * 60 * 60 * 1000) (now w)])%list /\
    userActivities w'
    = (userActivities w
       ++ [UserActivity.mk (User.id u) "USER_LOGGED_IN" (User.username u)
             (AuthService.login_ipAddress data) (AuthService.login_userAgent data)
             (now w)])%list /\
    failedLoginAttempts w' = failedLoginAttempts w /\
    Prisma.user_findUnique_id (User.id u) w'
    = (w', Resolved (Some (AuthService.lastLogin_data (now w) u0))).
Proof.
  intros Hu Hu0 Hs Hc. injection Hu as Hu. injection Hu0 as Hu0.
  pose proof (isAccountLocked_idle w (User.id u) u0 Hu0 Hs) as Hl.
  destruct (login_resolves_when_unlocked w data u Hu ltac:(rewrite Hl; reflexivity) Hc)
    as [w' [r [u1 [Hr [-> [Hse [Ha [Hf [_ [Hu1 Hu']]]]]]]]]].
  rewrite Hl in Hu1. cbn [fst] in Hu1. rewrite Hu0 in Hu1. injection Hu1 as <-.
  eexists. eexists. split; [exact Hr|].
  cbn [AuthService.accessToken AuthService.refreshToken_ AuthService.user].
  repeat (split; [reflexivity|]). split; [exact Hse|]. split; [exact Ha|].
  split; [exact Hf|]. unfold Prisma.user_findUnique_id. rewrite Hu'. reflexivity.
Qed.

(** X9. Once the lockout window has elapsed, a login with the right password
    succeeds, and the account is then active, with no lock-start and no
    reason, and is not locked at any later check. *)
Theorem login_after_lockout_clears_lock (w : World) (data : AuthService.ILoginDto)
  (u u0 : User.t) (d : Z) :
  Prisma.user_findUnique_email (AuthService.login_email data) w = (w, Resolved (Some u)) ->
  Prisma.user_findUnique_id (User.id u) w = (w, Resolved (Some u0)) ->
  User.accountStatus u0 = "LOCKED" ->
  User.deactivatedAt u0 = Some d ->
  d + 15 * 60 * 1000 <= now w ->
  compare (AuthService.login_password data) (User.password u) = true ->
  exists w' r u',
    AuthService.login data w = (w', Resolved r) /\
    Prisma.user_findUnique_id (User.id u) w' = (w', Resolved (Some u')) /\
    User.accountStatus u' = "ACTIVE" /\
    User.deactivatedAt u' = None /\
    User.deactivationReason u' = None /\
    User.lastLogin u' = Some (now w) /\
    forall t, SecurityService.isAccountLocked (User.id u) (set_now t w')
              = (set_now t w', Resolved false).
Proof.
  intros Hu Hu0 Es Ed Ht Hc. injection Hu as Hu. injection Hu0 as Hu0.
  change (15 * 60 * 1000) with 900000 in Ht.
  pose proof (isAccountLocked_expired w (User.id u) u0 d Hu0 Es Ed Ht) as Hl.
  destruct (login_resolves_when_unlocked w data u Hu ltac:(rewrite Hl; reflexivity) Hc)
    as [w' [r [u1 [Hr [_ [_ [_ [_ [_ [Hu1 Hu']]]]]]]]]].
  rewrite Hl in Hu1. cbn [fst users set_users] in Hu1. unfold unlock_where in Hu1.
  rewrite find_update_id in Hu1 by reflexivity. rewrite Hu0 in Hu1. injection Hu1 as <-.
  exists w', r. eexists. split; [exact Hr|].
  split; [unfold Prisma.user_findUnique_id; rewrite Hu'; reflexivity|].
  repeat (split; [reflexivity|]).
  intros t. apply (isAccountLocked_idle (set_now t w') _ _ Hu'). right. reflexivity.
Qed.

Lemma trackFailedLoginAttempt_resolves (w : World) (email : string) (ip ua : option string) :
  snd (SecurityService.trackFailedLoginAttempt email ip ua w) = Resolved tt.
Proof.
  destruct (find (fun v => User.email v == email) (users w)) as [u|] eqn:Hu.
  - destruct (trackFailedLoginAttempt_appends w email ip ua u Hu) as [w' [Hr _]].
    rewrite Hr. reflexivity.
  - rewrite (trackFailedLoginAttempt_unknown w email ip ua Hu). reflexivity.
Qed.


(** X7. Below the threshold a failed attempt is only recorded: for an unknown
    email, and for an account with fewer than 5 attempts in the window, the
    new row included, [trackFailedLoginAttempt] resolves, appends the row and
    changes nothing else; the account is not locked. *)
Theorem trackFailedLoginAttempt_below_threshold (w : World) (email : string)
  (ip ua : option string) :
  (Prisma.user_findUnique_email email w = (w, Resolved None) ->
   SecurityService.trackFailedLoginAttempt email ip ua w
   = (set_failedLoginAttempts
        (failedLoginAttempts w ++ [FailedLoginAttempt.mk email ip ua None (now w)]) w,
      Resolved tt))
  /\
  (forall u,
     Prisma.user_findUnique_email email w = (w, Resolved (Some u)) ->
     recentAttempts (User.id u) w + 1 < 5 ->
     SecurityService.trackFailedLoginAttempt email ip ua w
     = (set_failedLoginAttempts
          (failedLoginAttempts w
           ++ [FailedLoginAttempt.mk email ip ua (Some (User.id u)) (now w)]) w,
        Resolved tt)).
Proof.
  split.
  - intros Hu. injection Hu as Hu. apply trackFailedLoginAttempt_unknown, Hu.
  - intros u Hu Hc. injection Hu as Hu.
    rewrite (trackFailedLoginAttempt_known w email ip ua u Hu). cbv zeta.
    apply Z.leb_gt in Hc. rewrite Hc. reflexivity.
Qed.

Lemma register_run (w : World) (data : AuthService.IRegisterDto) (role : Role.t) :
  find (fun u => (User.email u == AuthService.reg_email data)
                 || (User.username u == AuthService.reg_username data)) (users w) = None ->
  find (fun r => Role.name r == "USER") (roles w) = Some role ->
  let e := entropy w in
  let c := Company.mk (uuid (S e)) (AuthService.reg_firstName data ++ "'s Company")
             (toUpperCase (AuthService.reg_username data)) true in
  let u := User.mk (uuid (S (S e))) (AuthService.reg_email data)
             (AuthService.reg_username data) (hash (AuthService.reg_password data) e)
             (AuthService.reg_firstName data) (AuthService.reg_lastName data)
             (Role.id role) (uuid (S e)) defaultAccountStatus None None None None None in
  let w3 := set_entropy (S (S (S e))) w in
  AuthService.register data w
  = if existsb (fun d => (Company.id d == uuid (S e))
                         || (Company.identifier d
                             == toUpperCase (AuthService.reg_username data)))
               (companies w)
    then (set_entropy (S (S e)) w, Rejected Prisma.P2002)
    else if existsb (fun v => (User.id v == uuid (S (S e)))
                              || (User.email v == AuthService.reg_email data)
                              || (User.username v == AuthService.reg_username data))
                    (users w)
    then (set_companies (companies w ++ [c]) w3, Rejected Prisma.P2002)
    else
      let w4 := set_users (users w ++ [u]) (set_companies (companies w ++ [c]) w3) in
      let tokens := issued_tokens u w4 in
      (set_userActivities
         (userActivities w
          ++ [UserActivity.mk (User.id u) "USER_REGISTERED" (User.username u)
                (AuthService.reg_ipAddress data) (AuthService.reg_userAgent data) (now w)])
         (set_userSessions
            (filter (fun s => negb (UserSession.token s == snd tokens)) (userSessions w)
             ++ [UserSession.mk (User.id u) (snd tokens) (AuthService.reg_ipAddress data)
                   (AuthService.reg_userAgent data) (now w + 86400000) (now w)])
            (set_entropy (S (S (S (S e)))) w4)),
       Resolved (AuthService.mkAuthResponse (fst tokens) (snd tokens)
                   (AuthService.summary u (role_of u w)))).
Proof.
  intros Hu Hr e c u w3.
  unfold AuthService.register, Prisma.company_create, Prisma.user_create. run.
  rewrite Hu. cbn [roles set_entropy]. rewrite Hr.
  cbn [companies entropy set_entropy users set_companies Company.id].
  fold e.
  destruct (existsb _ (companies w)); [reflexivity|].
  cbn [companies entropy set_entropy users set_companies User.id User.email User.username
       Prisma.data_email Prisma.data_username].
  destruct (existsb _ (users w)); [reflexivity|].
  rewrite generateTokens_run. cbv beta iota. rewrite createSession_run. reflexivity.
Qed.

Lemma existsb_false_intro {A : Type} (p : A -> bool) (l : list A) :
  (forall x, In x l -> p x = false) -> existsb p l = false.
Proof.
  intros Hp. destruct (existsb p l) eqn:E; [|reflexivity].
  apply existsb_exists in E. destruct E as [x [Hin Hx]].
  rewrite (Hp x Hin) in Hx. discriminate.
Qed.

(** X10. A registration with a free email and username succeeds when the
    USER role exists and the generated ids and the company identifier are
    free: it creates the company named after the first name with the
    upper-cased username as identifier, then the user with the hashed
    password, that role and that company and no lock or history, a session
    for the refresh token and the USER_REGISTERED activity. *)
Theorem register_creates_account (w : World) (data : AuthService.IRegisterDto)
  (role : Role.t) :
  Prisma.user_findFirst_email_or_username (AuthService.reg_email data)
    (AuthService.reg_username data) w = (w, Resolved None) ->
  Prisma.role_findFirst_name "USER" w = (w, Resolved (Some role)) ->
  (forall c, In c (companies w) ->
             Company.id c <> uuid (S (entropy w)) /\
             Company.identifier c <> toUpperCase (AuthService.reg_username data)) ->
  (forall v, In v (users w) -> User.id v <> uuid (S (S (entropy w)))) ->
  exists w' r c u,
    AuthService.register data w = (w', Resolved r) /\
    companies w' = (companies w ++ [c])%list /\
    c = Company.mk (uuid (S (entropy w))) (AuthService.reg_firstName data ++ "'s Company")
          (toUpperCase (AuthService.reg_username data)) true /\
    users w' = (users w ++ [u])%list /\
    u = User.mk (uuid (S (S (entropy w)))) (AuthService.reg_email data)
          (AuthService.reg_username data)
          (hash (AuthService.reg_password data) (entropy w))
          (AuthService.reg_firstName data) (AuthService.reg_lastName data)
          (Role.id role) (Company.id c) defaultAccountStatus None None None None None /\
    AuthService.user r = AuthService.summary u (role_of u w) /\
    userSessions w'
    = (filter (fun s => negb (token_is (AuthService.refreshToken_ r) s)) (userSessions w)
       ++ [UserSession.mk (User.id u) (AuthService.refreshToken_ r)
             (AuthService.reg_ipAddress data) (AuthService.reg_userAgent data)
             (now w + 24 * 60 * 60 * 1000) (now w)])%list /\
    userActivities w'
    = (userActivities w
       ++ [UserActivity.mk (User.id u) "USER_REGISTERED" (User.username u)
             (AuthService.reg_ipAddress data) (AuthService.reg_userAgent data)
             (now w)])%list.
Proof.
  intros Hu Hr Hc Hi. injection Hu as Hu. injection Hr as Hr.
  rewrite (register_run w data role Hu Hr). cbv zeta.
  rewrite existsb_false_intro.
  2:{ intros c Hin. destruct (Hc c Hin) as [H1 H2].
      apply String.eqb_neq in H1, H2. rewrite H1, H2. reflexivity. }
  rewrite existsb_false_intro.
  2:{ intros v Hin. pose proof (Hi v Hin) as H1. apply String.eqb_neq in H1.
      pose proof (find_none _ _ Hu v Hin) as H2. cbv beta in H2.
      apply orb_false_elim in H2. destruct H2 as [H2 H3].
      rewrite H1, H2, H3. reflexivity. }
  eexists. eexists. eexists. eexists. split; [reflexivity|].
  cbn [companies users userSessions userActivities set_userActivities set_userSessions
       set_entropy set_users set_companies AuthService.user AuthService.refreshToken_
       Company.id].
  repeat (split; [reflexivity|]). reflexivity.
Qed.

(** X11. Without a role named USER a registration is rejected with the
    default-role error, and no user, company, session or activity row is
    written. *)
Theorem register_without_default_role (w : World) (data : AuthService.IRegisterDto) :
  Prisma.user_findFirst_email_or_username (AuthService.reg_email data)
    (AuthService.reg_username data) w = (w, Resolved None) ->
  Prisma.role_findFirst_name "USER" w = (w, Resolved None) ->
  exists w',
    AuthService.register data w = (w', Rejected AuthService.DefaultRoleNotFound) /\
    users w' = users w /\ companies w' = companies w /\
    userSessions w' = userSessions w /\ userActivities w' = userActivities w.
Proof.
  intros Hu Hr. injection Hu as Hu. injection Hr as Hr.
  unfold AuthService.register. run. rewrite Hu. cbn [roles set_entropy]. rewrite Hr.
  eexists. split; [reflexivity|]. repeat split.
Qed.

(** X12. When a company already holds the upper-cased username as its
    identifier, a registration is rejected by the store with P2002 (not with
    an application error), and no user, company, session or activity row is
    written. *)
Theorem register_company_identifier_taken (w : World) (data : AuthService.IRegisterDto)
  (role : Role.t) (c : Company.t) :
  Prisma.user_findFirst_email_or_username (AuthService.reg_email data)
    (AuthService.reg_username data) w = (w, Resolved None) ->
  Prisma.role_findFirst_name "USER" w = (w, Resolved (Some role)) ->
  In c (companies w) ->
  Company.identifier c = toUpperCase (AuthService.reg_username data) ->
  exists w',
    AuthService.register data w = (w', Rejected Prisma.P2002) /\
    users w' = users w /\ companies w' = companies w /\
    userSessions w' = userSessions w /\ userActivities w' = userActivities w.
Proof.
  intros Hu Hr Hin Hc. injection Hu as Hu. injection Hr as Hr.
  rewrite (register_run w data role Hu Hr). cbv zeta.
  replace (existsb _ (companies w)) with true.
  - eexists. split; [reflexivity|]. repeat split.
  - symmetry. apply existsb_exists. exists c. split; [exact Hin|].
    rewrite Hc, String.eqb_refl. apply orb_true_r.
Qed.

Lemma find_snoc_email (e : string) (l : list User.t) (u : User.t) :
  find (fun v => User.email v == e) l = None -> User.email u = e ->
  find (fun v => User.email v == e) (l ++ [u]) = Some u.
Proof.
  intros Hn He. induction l as [|a l IH]; cbn [app find] in *.
  - rewrite He, String.eqb_refl. reflexivity.
  - destruct (User.email a == e); [discriminate | exact (IH Hn)].
Qed.

Lemma register_resolved_row (w w' : World) (data : AuthService.IRegisterDto)
  (r : AuthService.IAuthResponse) :
  AuthService.register data w = (w', Resolved r) ->
  exists u,
    users w' = (users w ++ [u])%list /\
    User.id u = AuthService.sum_id (AuthService.user r) /\
    User.email u = AuthService.reg_email data /\
    User.password u = hash (AuthService.reg_password data) (entropy w) /\
    User.deactivatedAt u = None /\
    AuthService.user r = AuthService.summary u (role_of u w) /\
    roles w' = roles w /\
    find (fun v => User.id v == User.id u) (users w) = None /\
    find (fun v => User.email v == AuthService.reg_email data) (users w) = None.
Proof.
  intros Hreg.
  destruct (find (fun u => (User.email u == AuthService.reg_email data)
                           || (User.username u == AuthService.reg_username data))
                 (users w)) as [x|] eqn:Hu.
  { assert (E : AuthService.register data w = (w, Rejected AuthService.UserAlreadyExists))
      by (unfold AuthService.register; run; rewrite Hu; reflexivity).
    rewrite E in Hreg. discriminate. }
  destruct (find (fun r => Role.name r == "USER") (roles w)) as [role|] eqn:Hr.
  2:{ assert (E : AuthService.register data w
                  = (set_entropy (S (entropy w)) w, Rejected AuthService.DefaultRoleNotFound))
        by (unfold AuthService.register; run; rewrite Hu; cbn [roles set_entropy];
            rewrite Hr; reflexivity).
      rewrite E in Hreg. discriminate. }
  rewrite (register_run w data role Hu Hr) in Hreg. cbv zeta in Hreg.
  destruct (existsb _ (companies w)); [discriminate|].
  destruct (existsb _ (users w)) eqn:Ex; [discriminate|].
  injection Hreg as <- <-. eexists. split; [reflexivity|].
  cbn [User.id User.email User.password User.deactivatedAt AuthService.user
       AuthService.summary AuthService.sum_id].
  repeat (split; [reflexivity|]). split.
  - clear - Ex. induction (users w) as [|v l IH]; [reflexivity|].
    cbn [existsb find] in *. apply orb_false_elim in Ex. destruct Ex as [Ev El].
    apply orb_false_elim in Ev. destruct Ev as [Ev _].
    apply orb_false_elim in Ev. destruct Ev as [Ev _].
    rewrite Ev. exact (IH El).
  - clear - Hu. induction (users w) as [|v l IH]; [reflexivity|].
    cbn [find] in *. destruct (User.email v == AuthService.reg_email data); [discriminate|].
    cbn [orb] in Hu. destruct (User.username v == AuthService.reg_username data);
      [discriminate | exact (IH Hu)].
Qed.

(** X13. After a successful registration, a login with the same email and
    password succeeds at any later instant and returns the same account
    summary, provided [compare] accepts the password against the hash that
    was stored. *)
Theorem register_then_login (w w1 : World) (data : AuthService.IRegisterDto)
  (r : AuthService.IAuthResponse) (t : Z) (ip ua : option string) :
  AuthService.register data w = (w1, Resolved r) ->
  compare (AuthService.reg_password data)
          (hash (AuthService.reg_password data) (entropy w)) = true ->
  exists w2 r2,
    AuthService.login
      (AuthService.mkLoginDto (AuthService.reg_email data) (AuthService.reg_password data)
         ip ua)
      (set_now t w1)
    = (w2, Resolved r2) /\
    AuthService.user r2 = AuthService.user r.
Proof.
  intros Hreg Hc.
  destruct (register_resolved_row _ _ _ _ Hreg)
    as [u [Hus [Hid [Hem [Hp [Hd [Hsum [Hro [Hni Hne]]]]]]]]].
  assert (Hu : find (fun v => User.email v
                              == AuthService.login_email
                                   (AuthService.mkLoginDto (AuthService.reg_email data)
                                      (AuthService.reg_password data) ip ua))
                    (users (set_now t w1)) = Some u).
  { cbn [users set_now AuthService.login_email]. rewrite Hus.
    apply find_snoc_email; [exact Hne | exact Hem]. }
  assert (Hu0 : find (fun v => User.id v == User.id u) (users (set_now t w1)) = Some u).
  { cbn [users set_now]. rewrite Hus. apply find_snoc_new; [exact Hni | reflexivity]. }
  pose proof (isAccountLocked_idle (set_now t w1) (User.id u) u Hu0 (or_intror Hd)) as Hl.
  destruct (login_resolves_when_unlocked (set_now t w1) _ u Hu
              ltac:(rewrite Hl; reflexivity)
              ltac:(cbn [AuthService.login_password]; rewrite Hp; exact Hc))
    as [w2 [r2 [u1 [Hr [Hr2 _]]]]].
  exists w2, r2. split; [exact Hr|]. subst r2. cbn [AuthService.user].
  rewrite Hsum. unfold role_of. cbn [roles set_now]. rewrite Hro. reflexivity.
Qed.

Lemma refreshToken_run (w : World) (data : AuthService.IRefreshTokenDto) :
  let old := AuthService.refresh_refreshToken data in
  AuthService.refreshToken data w
  = match verify old JWT_REFRESH_SECRET (now w) with
    | None => (w, Rejected AuthService.InvalidRefreshToken)
    | Some userId =>
        match find (fun v => User.id v == userId) (users w) with
        | None => (w, Rejected AuthService.InvalidRefreshToken)
        | Some u =>
            if existsb (token_is old) (userSessions w)
            then
              let tokens := issued_tokens u w in
              (set_userActivities
                 (userActivities w
                  ++ [UserActivity.mk (User.id u) "TOKEN_REFRESHED" (User.username u)
                        (AuthService.refresh_ipAddress data)
                        (AuthService.refresh_userAgent data) (now w)])
                 (set_userSessions
                    (filter (fun s => negb (UserSession.token s == snd tokens))
                            (filter (fun s => negb (UserSession.token s == old))
                                    (userSessions w))
                     ++ [UserSession.mk (User.id u) (snd tokens)
                           (AuthService.refresh_ipAddress data)
                           (AuthService.refresh_userAgent data)
                           (now w + 86400000) (now w)])
                    (set_entropy (S (entropy w)) w)),
               Resolved (AuthService.mkAuthResponse (fst tokens) (snd tokens)
                           (AuthService.summary u (role_of u w))))
            else (w, Rejected AuthService.InvalidRefreshToken)
        end
    end.
Proof.
  intros old. subst old. unfold AuthService.refreshToken, token_is. run.
  destruct (verify _ _ _) as [userId|]; [|reflexivity].
  destruct (find _ (users w)) as [u|]; [|reflexivity].
  destruct (existsb _ _); [|reflexivity].
  rewrite generateTokens_run. cbv beta iota. rewrite createSession_run. reflexivity.
Qed.

Lemma refreshToken_no_session (w : World) (data : AuthService.IRefreshTokenDto) :
  existsb (token_is (AuthService.refresh_refreshToken data)) (userSessions w) = false ->
  AuthService.refreshToken data w = (w, Rejected AuthService.InvalidRefreshToken).
Proof.
  intros Hs. rewrite refreshToken_run. cbv zeta. rewrite Hs.
  destruct (verify _ _ _); [|reflexivity]. destruct (find _ _); reflexivity.
Qed.

(** X14. The refresh flow is all or nothing: when it is rejected, the error
    is the invalid-refresh-token error whatever the cause, and the world is
    unchanged. *)
Theorem refreshToken_rejects_atomically (w w' : World) (data : AuthService.IRefreshTokenDto)
  (e : Error) :
  AuthService.refreshToken data w = (w', Rejected e) ->
  e = AuthService.InvalidRefreshToken /\ w' = w.
Proof.
  rewrite refreshToken_run. cbv zeta.
  destruct (verify _ _ _); [|intros E; injection E as <- <-; split; reflexivity].
  destruct (find _ _); [|intros E; injection E as <- <-; split; reflexivity].
  destruct (existsb _ _); [discriminate|].
  intros E. injection E as <- <-. split; reflexivity.
Qed.

(** X15. A refresh token is single-use: after a successful refresh that
    issued a different token, presenting the old token again is rejected at
    any later instant, and nothing is written. *)
Theorem refreshToken_single_use (w w' : World) (data : AuthService.IRefreshTokenDto)
  (r : AuthService.IAuthResponse) :
  AuthService.refreshToken data w = (w', Resolved r) ->
  AuthService.refreshToken_ r <> AuthService.refresh_refreshToken data ->
  forall (t : Z) (ip ua : option string),
    AuthService.refreshToken
      (AuthService.mkRefreshTokenDto (AuthService.refresh_refreshToken data) ip ua)
      (set_now t w')
    = (set_now t w', Rejected AuthService.InvalidRefreshToken).
Proof.
  rewrite refreshToken_run. cbv zeta.
  destruct (verify _ _ _); [|discriminate].
  destruct (find _ _) as [u|]; [|discriminate].
  destruct (existsb _ _); [|discriminate].
  intros E Hne t ip ua. injection E as <- <-.
  cbn [AuthService.refreshToken_] in Hne.
  apply refreshToken_no_session.
  cbn [AuthService.refresh_refreshToken userSessions set_now set_userActivities
       set_userSessions].
  rewrite existsb_app. cbn [existsb]. unfold token_is at 2. cbn [UserSession.token].
  apply String.eqb_neq in Hne. rewrite Hne. cbn [orb]. rewrite orb_false_r.
  apply existsb_false_intro. intros x Hx.
  apply filter_In in Hx. destruct Hx as [Hx _].
  apply filter_In in Hx. destruct Hx as [_ Hx].
  unfold token_is. apply negb_true_iff in Hx. exact Hx.
Qed.

(** X16. After a logout, a refresh with the same token is rejected at any
    later instant, and nothing is written. *)
Theorem logout_then_refresh_rejected (w : World) (token : string) (t : Z)
  (ip ua : option string) :
  AuthService.refreshToken (AuthService.mkRefreshTokenDto token ip ua)
    (set_now t (fst (AuthService.logout token w)))
  = (set_now t (fst (AuthService.logout token w)), Rejected AuthService.InvalidRefreshToken).
Proof.
  apply refreshToken_no_session. cbn [AuthService.refresh_refreshToken userSessions set_now].
  unfold AuthService.logout. run. fold (token_is token).
  destruct (existsb (token_is token) (userSessions w)) eqn:E.
  - cbn [fst userSessions set_userSessions]. apply existsb_token_filtered.
  - cbn [fst userSessions set_console]. exact E.
Qed.

Lemma login_resolved (w w' : World) (data : AuthService.ILoginDto)
  (r : AuthService.IAuthResponse) :
  AuthService.login data w = (w', Resolved r) ->
  exists u,
    find (fun v => User.email v == AuthService.login_email data) (users w) = Some u /\
    snd (SecurityService.isAccountLocked (User.id u) w) = Resolved false /\
    compare (AuthService.login_password data) (User.password u) = true.
Proof.
  intros Hlog.
  destruct (find (fun v => User.email v == AuthService.login_email data) (users w))
    as [u|] eqn:Hu.
  - exists u. split; [reflexivity|].
    unfold AuthService.login in Hlog. revert Hlog. run. rewrite Hu.
    destruct (SecurityService.isAccountLocked (User.id u) w) as [w1 [[|] | e]];
      cbv beta iota; try discriminate.
    destruct (compare _ _); [intros _; split; reflexivity|].
    cbn [negb]. cbv beta iota.
    destruct (SecurityService.trackFailedLoginAttempt _ _ _ w1) as [w2 [[] | e]];
      discriminate.
  - exfalso. unfold AuthService.login in Hlog. revert Hlog. run. rewrite Hu.
    rewrite (trackFailedLoginAttempt_unknown w _ _ _ Hu). discriminate.
Qed.

(** X17. After a successful login, a refresh with the issued refresh token
    succeeds for the same account, provided [verify] accepts the token and
    yields the account's id. *)
Theorem login_then_refresh (w w1 : World) (data : AuthService.ILoginDto)
  (r : AuthService.IAuthResponse) (t : Z) (ip ua : option string) :
  AuthService.login data w = (w1, Resolved r) ->
  verify (AuthService.refreshToken_ r) JWT_REFRESH_SECRET t
  = Some (AuthService.sum_id (AuthService.user r)) ->
  exists w2 r2,
    AuthService.refreshToken
      (AuthService.mkRefreshTokenDto (AuthService.refreshToken_ r) ip ua) (set_now t w1)
    = (w2, Resolved r2) /\
    AuthService.sum_id (AuthService.user r2) = AuthService.sum_id (AuthService.user r).
Proof.
  intros Hlog Hv.
  destruct (login_resolved _ _ _ _ Hlog) as [u [Hu [Hl Hc]]].
  destruct (login_resolves_when_unlocked w data u Hu Hl Hc)
    as [w' [r' [u1 [Hr [Hr' [Hse [_ [_ [_ [_ Hu']]]]]]]]]].
  rewrite Hr in Hlog. injection Hlog as -> ->.
  rewrite refreshToken_run. cbv zeta.
  cbn [AuthService.refresh_refreshToken now set_now users userSessions].
  rewrite Hv. subst r. cbn [AuthService.user AuthService.summary AuthService.sum_id
                              AuthService.refreshToken_] in *.
  rewrite Hu'.
  replace (existsb _ (userSessions w1)) with true.
  - eexists. eexists. split; [reflexivity|].
    cbn [AuthService.user AuthService.summary AuthService.sum_id].
    exact (find_id_is _ _ _ Hu').
  - symmetry. rewrite Hse, existsb_app. apply orb_true_iff. right.
    cbn [existsb]. unfold token_is. cbn [UserSession.token].
    rewrite String.eqb_refl. reflexivity.
Qed.

Lemma changePassword_resolved (w w' : World) (userId currentPassword newPassword m : string) :
  UserService.changePassword userId currentPassword newPassword w = (w', Resolved m) ->
  exists u,
    find (fun v => User.id v == userId) (users w) = Some u /\
    compare currentPassword (User.password u) = true /\
    existsb (password_matches newPassword) (history_of u) = false.
Proof.
  unfold UserService.changePassword. run.
  destruct (find _ (users w)) as [u|] eqn:Hu; [|discriminate].
  destruct (compare currentPassword (User.password u)) eqn:Hc; [|discriminate].
  cbn [negb]. fold (history_of u). rewrite checkHistory_scan.
  destruct (existsb _ _) eqn:Hh; [discriminate|]. intros _. exists u. auto.
Qed.

Lemma changePassword_row (w w' : World) (userId currentPassword newPassword m : string) :
  UserService.changePassword userId currentPassword newPassword w = (w', Resolved m) ->
  exists u,
    find (fun v => User.id v == userId) (users w) = Some u /\
    compare currentPassword (User.password u) = true /\
    existsb (password_matches newPassword) (history_of u) = false /\
    let hashed := hash newPassword (entropy w) in
    let updated := PasswordHistoryEntry.mk hashed (toISOString (now w))
                   :: firstn 4 (history_of u) in
    w' = set_users
           (map (fun v => if User.id v == userId
                          then UserService.password_data hashed updated (now w) v else v)
                (users w))
           (set_entropy (S (entropy w)) w).
Proof.
  intros Hch. destruct (changePassword_resolved _ _ _ _ _ _ Hch) as [u [Hu [Hc Hh]]].
  exists u. repeat (split; [assumption|]). cbv zeta.
  rewrite (changePassword_accepts w userId currentPassword newPassword u Hu Hc Hh) in Hch.
  cbv zeta in Hch. injection Hch as <- _. reflexivity.
Qed.

(** X18. [getPasswordHistory] is rejected with not-found for a missing
    account; otherwise it returns the dates of the stored entries, without
    the hashes, and [lastPasswordChange], and changes nothing.  After a
    successful password change it reports the date of the change first, at
    most four older dates, and the instant of the change. *)
Theorem getPasswordHistory_reports_dates (w : World) (userId : string) :
  (Prisma.user_findUnique_id userId w = (w, Resolved None) ->
   UserService.getPasswordHistory userId w = (w, Rejected UserService.UserNotFound))
  /\
  (forall u,
     Prisma.user_findUnique_id userId w = (w, Resolved (Some u)) ->
     UserService.getPasswordHistory userId w
     = (w, Resolved (UserService.mkPasswordHistoryView
                       (map PasswordHistoryEntry.changedAt (history_of u))
                       (User.lastPasswordChange u))))
  /\
  (forall currentPassword newPassword m w' t,
     UserService.changePassword userId currentPassword newPassword w = (w', Resolved m) ->
     exists dates,
       UserService.getPasswordHistory userId (set_now t w')
       = (set_now t w',
          Resolved (UserService.mkPasswordHistoryView (toISOString (now w) :: dates)
                      (Some (now w)))) /\
       (List.length dates <= 4)%nat).
Proof.
  split; [|split].
  - intros Hu. injection Hu as Hu. unfold UserService.getPasswordHistory. run.
    rewrite Hu. reflexivity.
  - intros u Hu. injection Hu as Hu. unfold UserService.getPasswordHistory. run.
    rewrite Hu. unfold history_of. destruct (User.passwordHistory u); reflexivity.
  - intros currentPassword newPassword m w' t Hch.
    destruct (changePassword_row _ _ _ _ _ _ Hch) as [u [Hu [_ [_ Hw]]]]. cbv zeta in Hw.
    exists (map PasswordHistoryEntry.changedAt (firstn 4 (history_of u))). split.
    + unfold UserService.getPasswordHistory. run. subst w'.
      cbn [users set_now set_users set_entropy].
      rewrite find_update_id by reflexivity. rewrite Hu. reflexivity.
    + rewrite length_map. apply firstn_le_length.
Qed.

(** X21. The password just set is in the history: changing it to itself
    right after a successful change is rejected with the password-reuse
    error, provided [compare] accepts the password against its hash. *)
Theorem changePassword_again_rejected (w w' : World)
  (userId currentPassword newPassword m : string) (t : Z) :
  UserService.changePassword userId currentPassword newPassword w = (w', Resolved m) ->
  compare newPassword (hash newPassword (entropy w)) = true ->
  UserService.changePassword userId newPassword newPassword (set_now t w')
  = (set_now t w', Rejected UserService.PasswordReused).
Proof.
  intros Hch Hc.
  destruct (changePassword_row _ _ _ _ _ _ Hch) as [u [Hu [_ [_ Hw]]]]. cbv zeta in Hw.
  unfold UserService.changePassword. run. subst w'.
  cbn [users set_now set_users set_entropy].
  rewrite find_update_id by reflexivity. rewrite Hu.
  cbn [option_map UserService.password_data User.password User.passwordHistory].
  rewrite Hc. cbn [negb UserService.checkHistory PasswordHistoryEntry.password].
  rewrite Hc. reflexivity.
Qed.

(** X22. The password that was replaced is not put into the history: after a
    successful change, changing back to the previous password succeeds as
    long as it matches none of the first four older entries. *)
Theorem changePassword_back_to_previous (w w' : World)
  (userId currentPassword newPassword m : string) (u : User.t) (t : Z) :
  UserService.changePassword userId currentPassword newPassword w = (w', Resolved m) ->
  Prisma.user_findUnique_id userId w = (w, Resolved (Some u)) ->
  (forall h, In h (firstn 4 (history_of u)) ->
             compare currentPassword (PasswordHistoryEntry.password h) = false) ->
  compare newPassword (hash newPassword (entropy w)) = true ->
  compare currentPassword (hash newPassword (entropy w)) = false ->
  exists w2,
    UserService.changePassword userId newPassword currentPassword (set_now t w')
    = (w2, Resolved "Password updated successfully").
Proof.
  intros Hch Hu Hold Hn Hc. injection Hu as Hu.
  destruct (changePassword_row _ _ _ _ _ _ Hch) as [u' [Hu' [_ [_ Hw]]]]. cbv zeta in Hw.
  rewrite Hu in Hu'. injection Hu' as <-.
  eexists. apply (changePassword_accepts _ _ _ _
                    (UserService.password_data (hash newPassword (entropy w))
                       (PasswordHistoryEntry.mk (hash newPassword (entropy w))
                          (toISOString (now w)) :: firstn 4 (history_of u))
                       (now w) u)).
  - subst w'. cbn [users set_now set_users set_entropy].
    rewrite find_update_id by reflexivity. rewrite Hu. reflexivity.
  - exact Hn.
  - unfold history_of at 1. cbn [UserService.password_data User.passwordHistory existsb].
    unfold password_matches at 1. cbn [PasswordHistoryEntry.password]. rewrite Hc.
    apply existsb_false_intro. intros h Hin. apply (Hold h Hin).
Qed.

(** X19. After a successful password change on an account that is not locked,
    a login with the new password succeeds when [compare] accepts it against
    the new hash, and a login with the old password is rejected with the
    invalid-credentials error when [compare] refuses it. *)
Theorem changePassword_then_login (w w' : World)
  (userId currentPassword newPassword m email : string) (u : User.t)
  (t : Z) (ip ua : option string) :
  UserService.changePassword userId currentPassword newPassword w = (w', Resolved m) ->
  Prisma.user_findUnique_email email w = (w, Resolved (Some u)) ->
  Prisma.user_findUnique_id userId w = (w, Resolved (Some u)) ->
  User.accountStatus u <> "LOCKED" \/ User.deactivatedAt u = None ->
  (compare newPassword (hash newPassword (entropy w)) = true ->
   exists w2 r,
     AuthService.login (AuthService.mkLoginDto email newPassword ip ua) (set_now t w')
     = (w2, Resolved r))
  /\
  (compare currentPassword (hash newPassword (entropy w)) = false ->
   exists w2,
     AuthService.login (AuthService.mkLoginDto email currentPassword ip ua) (set_now t w')
     = (w2, Rejected AuthService.InvalidCredentials)).
Proof.
  intros Hch Hue Hui Hs. injection Hue as Hue. injection Hui as Hui.
  destruct (changePassword_row _ _ _ _ _ _ Hch) as [u' [Hu' [_ [_ Hw]]]]. cbv zeta in Hw.
  rewrite Hui in Hu'. injection Hu' as <-.
  pose proof (find_id_is _ _ _ Hui) as Hid.
  set (hashed := hash newPassword (entropy w)) in *.
  set (updated := PasswordHistoryEntry.mk hashed (toISOString (now w))
                  :: firstn 4 (history_of u)) in *.
  set (u2 := UserService.password_data hashed updated (now w) u).
  assert (He : forall p,
             find (fun v => User.email v
                            == AuthService.login_email (AuthService.mkLoginDto email p ip ua))
                  (users (set_now t w')) = Some u2).
  { intros p. subst w'. cbn [users set_now set_users set_entropy AuthService.login_email].
    rewrite find_update_email by reflexivity. rewrite Hue. cbn [option_map].
    rewrite Hid, String.eqb_refl. reflexivity. }
  assert (Hi : find (fun v => User.id v == User.id u2) (users (set_now t w')) = Some u2).
  { subst w'. cbn [users set_now set_users set_entropy]. change (User.id u2) with (User.id u).
    rewrite Hid. rewrite find_update_id by reflexivity. rewrite Hui. reflexivity. }
  pose proof (isAccountLocked_idle (set_now t w') (User.id u2) u2 Hi Hs) as Hl.
  split; intros Hc.
  - destruct (login_resolves_when_unlocked (set_now t w') _ u2 (He newPassword)
                ltac:(rewrite Hl; reflexivity) Hc)
      as [w2 [r [_ [Hr _]]]].
    exists w2, r. exact Hr.
  - unfold AuthService.login. run. rewrite (He currentPassword), Hl.
    cbn [AuthService.login_password]. change (User.password u2) with hashed.
    rewrite Hc. cbn [negb]. cbv beta iota.
    pose proof (trackFailedLoginAttempt_resolves (set_now t w') email ip ua) as Ht.
    cbn [AuthService.login_email AuthService.login_ipAddress AuthService.login_userAgent].
    destruct (SecurityService.trackFailedLoginAttempt email ip ua (set_now t w'))
      as [w2 s2].
    cbn [snd] in Ht. subst s2. exists w2. reflexivity.
Qed.

Lemma invariant_users_frame {A : Type} (m : Promise A) :
  (forall w, users (fst (m w)) = users w) -> invariant history_bounded m.
Proof. intros Hm w Hw. unfold history_bounded. rewrite Hm. exact Hw. Qed.

Lemma hist_user_update (i : string) (f : User.t -> User.t) :
  (forall u, (List.length (history_of u) <= 5)%nat ->
             (List.length (history_of (f u)) <= 5)%nat) ->
  invariant history_bounded (Prisma.user_update i f).
Proof.
  intros Hf w Hw. unfold Prisma.user_update.
  destruct (find _ (users w)); [|exact Hw].
  unfold history_bounded in *. cbn [fst users set_users].
  apply Forall_map. apply (Forall_impl _ (P := fun u => (List.length (history_of u) <= 5)%nat));
    [|exact Hw].
  intros v Hv. destruct (User.id v == i); [apply Hf, Hv | exact Hv].
Qed.

Lemma hist_user_update_lock i t :
  invariant history_bounded (Prisma.user_update i (SecurityService.lock_data t)).
Proof. apply hist_user_update. intros u Hu. exact Hu. Qed.

Lemma hist_user_update_unlock i :
  invariant history_bounded (Prisma.user_update i SecurityService.unlock_data).
Proof. apply hist_user_update. intros u Hu. exact Hu. Qed.

Lemma hist_user_update_lastLogin i t :
  invariant history_bounded (Prisma.user_update i (AuthService.lastLogin_data t)).
Proof. apply hist_user_update. intros u Hu. exact Hu. Qed.

Lemma hist_user_update_password i h e l t :
  invariant history_bounded
    (Prisma.user_update i (UserService.password_data h (e :: firstn 4 l) t)).
Proof.
  apply hist_user_update. intros u _. unfold history_of.
  cbn [UserService.password_data User.passwordHistory List.length].
  pose proof (firstn_le_length 4 l). lia.
Qed.

Lemma hist_user_create d : invariant history_bounded (Prisma.user_create d).
Proof.
  intros w Hw. unfold Prisma.user_create. run.
  destruct (existsb _ _); [exact Hw|].
  unfold history_bounded in *. cbn [fst users set_users set_entropy].
  apply Forall_app. split; [exact Hw|]. constructor; [|constructor].
  unfold history_of. cbn [User.passwordHistory List.length]. lia.
Qed.

Lemma hist_company_create n i a : invariant history_bounded (Prisma.company_create n i a).
Proof.
  apply invariant_users_frame. intros w. unfold Prisma.company_create. run.
  destruct (existsb _ _); reflexivity.
Qed.

Lemma hist_userSession_delete_token t :
  invariant history_bounded (Prisma.userSession_delete_token t).
Proof.
  apply invariant_users_frame. intros w. unfold Prisma.userSession_delete_token.
  destruct (existsb _ _); reflexivity.
Qed.

Lemma hist_userSession_create u t i a e :
  invariant history_bounded (Prisma.userSession_create u t i a e).
Proof.
  apply invariant_users_frame. intros w. unfold Prisma.userSession_create. cbv zeta.
  destruct (existsb _ _); reflexivity.
Qed.

Lemma hist_reads_and_appends :
  (forall i, invariant history_bounded (Prisma.user_findUnique_id i)) /\
  (forall e, invariant history_bounded (Prisma.user_findUnique_email e)) /\
  (forall e n, invariant history_bounded (Prisma.user_findFirst_email_or_username e n)) /\
  (forall u, invariant history_bounded (Prisma.user_role u)) /\
  (forall n, invariant history_bounded (Prisma.role_findFirst_name n)) /\
  invariant history_bounded Date_now /\
  invariant history_bounded random /\
  (forall m e, invariant history_bounded (console_error m e)) /\
  (forall e i a u, invariant history_bounded (Prisma.failedLoginAttempt_create e i a u)) /\
  (forall u g, invariant history_bounded (Prisma.failedLoginAttempt_count u g)) /\
  (forall t, invariant history_bounded (Prisma.failedLoginAttempt_deleteMany_createdAt_lt t)) /\
  (forall u a m i g, invariant history_bounded (Prisma.userActivity_create u a m i g)) /\
  (forall t, invariant history_bounded (Prisma.userSession_deleteMany_token t)) /\
  (forall u, invariant history_bounded (Prisma.userSession_deleteMany_userId u)) /\
  (forall t, invariant history_bounded (Prisma.userSession_deleteMany_expiresAt_lt t)).
Proof. repeat split; intros; intros w Hw; exact Hw. Qed.

Ltac hist_step :=
  cbv zeta;
  repeat match goal with
    | |- invariant _ (bind _ _) => apply invariant_bind; [| intro]
    | |- invariant _ (tryCatch _ _) => apply invariant_tryCatch; [| intro]
    | |- invariant _ (resolve _) => apply invariant_resolve
    | |- invariant _ (throw _) => apply invariant_throw
    | |- invariant _ (match ?x with _ => _ end) => destruct x
    | |- invariant history_bounded (Prisma.user_update _ _) =>
        first [ apply hist_user_update_lock | apply hist_user_update_unlock
              | apply hist_user_update_lastLogin | apply hist_user_update_password ]
    | |- invariant history_bounded (Prisma.user_create _) => apply hist_user_create
    | |- invariant history_bounded (Prisma.company_create _ _ _) => apply hist_company_create
    | |- invariant history_bounded (Prisma.userSession_delete_token _) =>
        apply hist_userSession_delete_token
    | |- invariant history_bounded (Prisma.userSession_create _ _ _ _ _) =>
        apply hist_userSession_create
    | |- invariant history_bounded _ => solve [apply hist_reads_and_appends]
    end.

Lemma hist_checkHistory p l : invariant history_bounded (UserService.checkHistory p l).
Proof.
  induction l as [|h l IH]; cbn [UserService.checkHistory]; hist_step. exact IH.
Qed.

Lemma hist_handle (req : Request) (w : World) :
  history_bounded w -> history_bounded (handle req w).
Proof.
  destruct req; cbn [handle].
  - revert w. change (invariant history_bounded (AuthService.register data)).
    unfold AuthService.register, AuthService.generateTokens, SecurityService.createSession,
      SecurityService.trackActivity. hist_step.
  - revert w. change (invariant history_bounded (AuthService.login data)).
    unfold AuthService.login, AuthService.generateTokens, SecurityService.createSession,
      SecurityService.trackActivity, SecurityService.trackFailedLoginAttempt,
      SecurityService.isAccountLocked. hist_step.
  - revert w. change (invariant history_bounded (AuthService.refreshToken data)).
    unfold AuthService.refreshToken, AuthService.generateTokens,
      SecurityService.createSession, SecurityService.trackActivity,
      SecurityService.invalidateSession. hist_step.
  - revert w. change (invariant history_bounded (AuthService.logout refreshToken)).
    unfold AuthService.logout, SecurityService.invalidateSession. hist_step.
  - revert w.
    change (invariant history_bounded
              (UserService.changePassword userId currentPassword newPassword)).
    unfold UserService.changePassword. hist_step. apply hist_checkHistory.
  - revert w. change (invariant history_bounded (SecurityService.invalidateAllSessions userId)).
    unfold SecurityService.invalidateAllSessions. hist_step.
  - revert w. change (invariant history_bounded SecurityService.cleanupOldRecords).
    unfold SecurityService.cleanupOldRecords. hist_step.
  - intros Hw. exact Hw.
Qed.

(** X20. Every stored password history keeps at most five entries through
    any sequence of calls. *)
Theorem history_bounded_forever (reqs : list Request) (w : World) :
  history_bounded w -> history_bounded (serve reqs w).
Proof.
  revert w. induction reqs as [|req reqs IH]; intros w Hw; [exact Hw|].
  cbn [serve fold_left]. apply IH, hist_handle, Hw.
Qed.

(** X23. The refresh endpoint answers 200 with the service's result or 401
    with the invalid-refresh-token error, and in the second case leaves the
    world unchanged and writes nothing to the console. *)
Theorem refresh_endpoint_200_or_401 (w : World) (body : AuthService.IRefreshTokenDto) :
  (exists w' r,
     AuthService.refreshToken body w = (w', Resolved r) /\
     AuthController.refreshToken body w
     = (w', Resolved (Http.mkResponse 200 (Http.success r))))
  \/
  AuthController.refreshToken body w
  = (w, Resolved (Http.mkResponse 401 (Http.error_of AuthService.InvalidRefreshToken))).
Proof.
  unfold AuthController.refreshToken. run.
  pose proof (refreshToken_run w body) as Hrun. cbv zeta in Hrun.
  destruct (verify _ _ _); [|right; rewrite Hrun; reflexivity].
  destruct (find _ _); [|right; rewrite Hrun; reflexivity].
  destruct (existsb _ _); [|right; rewrite Hrun; reflexivity].
  left. rewrite Hrun. eexists. eexists. split; reflexivity.
Qed.

Lemma trackFailedLoginAttempt_frame (w : World) (email : string) (ip ua : option string) :
  exists w',
    SecurityService.trackFailedLoginAttempt email ip ua w = (w', Resolved tt) /\
    userSessions w' = userSessions w /\ userActivities w' = userActivities w.
Proof.
  destruct (find (fun v => User.email v == email) (users w)) as [u|] eqn:Hu.
  - rewrite (trackFailedLoginAttempt_known w email ip ua u Hu). cbv zeta.
    destruct (5 <=? _); eexists; repeat split.
  - rewrite (trackFailedLoginAttempt_unknown w email ip ua Hu). eexists. repeat split.
Qed.

Lemma login_outcome (w : World) (data : AuthService.ILoginDto) :
  exists w',
    (exists r, AuthService.login data w = (w', Resolved r)) \/
    (AuthService.login data w = (w', Rejected AuthService.InvalidCredentials) /\
     userSessions w' = userSessions w /\ userActivities w' = userActivities w) \/
    (AuthService.login data w = (w', Rejected AuthService.AccountLocked) /\ w' = w).
Proof.
  destruct (find (fun v => User.email v == AuthService.login_email data) (users w))
    as [u|] eqn:Hu.
  - destruct (compare (AuthService.login_password data) (User.password u)) eqn:Hc.
    + destruct (isAccountLocked_cases w (User.id u)) as [[[|] Hb] | Hb].
      * exists w. right. right. split; [|reflexivity].
        unfold AuthService.login. run. rewrite Hu, Hb. reflexivity.
      * destruct (login_resolves_when_unlocked w data u Hu ltac:(rewrite Hb; reflexivity) Hc)
          as [w' [r [u1 [Hr _]]]].
        exists w'. left. exists r. exact Hr.
      * destruct (login_resolves_when_unlocked w data u Hu ltac:(rewrite Hb; reflexivity) Hc)
          as [w' [r [u1 [Hr _]]]].
        exists w'. left. exists r. exact Hr.
    + destruct (isAccountLocked_cases w (User.id u)) as [[[|] Hb] | Hb].
      * exists w. right. right. split; [|reflexivity].
        unfold AuthService.login. run. rewrite Hu, Hb. reflexivity.
      * destruct (trackFailedLoginAttempt_frame w (AuthService.login_email data)
                    (AuthService.login_ipAddress data) (AuthService.login_userAgent data))
          as [w' [Ht Hf]].
        exists w'. right. left. split; [|exact Hf]. unfold AuthService.login. run.
        rewrite Hu, Hb, Hc. cbn [negb]. cbv beta iota. rewrite Ht. reflexivity.
      * destruct (trackFailedLoginAttempt_frame
                    (set_users (map (unlock_where (User.id u)) (users w)) w)
                    (AuthService.login_email data) (AuthService.login_ipAddress data)
                    (AuthService.login_userAgent data))
          as [w' [Ht Hf]].
        exists w'. right. left. split; [|exact Hf]. unfold AuthService.login. run.
        rewrite Hu, Hb, Hc. cbn [negb]. cbv beta iota. rewrite Ht. reflexivity.
  - destruct (trackFailedLoginAttempt_frame w (AuthService.login_email data)
                (AuthService.login_ipAddress data) (AuthService.login_userAgent data))
      as [w' [Ht Hf]].
    exists w'. right. left. split; [|exact Hf]. unfold AuthService.login. run. rewrite Hu.
    rewrite Ht. reflexivity.
Qed.

(** X24. The login endpoint always answers, with 200 and the service's
    result or with 401 and the invalid-credentials or the account-locked
    error; with 401 no session and no activity row has been created. *)
Theorem login_endpoint_200_or_401 (w : World) (body : AuthService.ILoginDto) :
  exists w' resp,
    AuthController.login body w = (w', Resolved resp) /\
    ((Http.status resp = 200 /\
      exists r, Http.json resp = Http.success r /\
                AuthService.login body w = (w', Resolved r))
     \/
     (Http.status resp = 401 /\
      userSessions w' = userSessions w /\ userActivities w' = userActivities w /\
      (Http.json resp = Http.error_of AuthService.InvalidCredentials \/
       Http.json resp = Http.error_of AuthService.AccountLocked))).
Proof.
  unfold AuthController.login. run.
  destruct (login_outcome w body) as [w' [[r Hr] | [[Hr [Hs Ha]] | [Hr ->]]]]; rewrite Hr.
  - eexists. eexists. split; [reflexivity|]. left. split; [reflexivity|].
    exists r. split; reflexivity.
  - eexists. eexists. split; [reflexivity|]. right. split; [reflexivity|].
    cbn [userSessions userActivities set_console Http.json].
    split; [exact Hs|]. split; [exact Ha|]. left. reflexivity.
  - eexists. eexists. split; [reflexivity|]. right. split; [reflexivity|].
    cbn [userSessions userActivities set_console Http.json].
    split; [reflexivity|]. split; [reflexivity|]. right. reflexivity.
Qed.

(** X25. The register endpoint answers 201 with the service's result, 400
    when the email or username is taken, and 500 for every other rejection;
    each rejection is written to the console. *)
Theorem register_endpoint_statuses (w : World) (body : AuthService.IRegisterDto) :
  (forall w' r,
     AuthService.register body w = (w', Resolved r) ->
     AuthController.register body w
     = (w', Resolved (Http.mkResponse 201 (Http.success r))))
  /\
  (forall u,
     In u (users w) ->
     User.email u = AuthService.reg_email body \/
     User.username u = AuthService.reg_username body ->
     AuthController.register body w
     = (set_console (console w ++ [("Register error:", AuthService.UserAlreadyExists)]) w,
        Resolved (Http.mkResponse 400 (Http.error_of AuthService.UserAlreadyExists))))
  /\
  (forall w' e,
     AuthService.register body w = (w', Rejected e) ->
     e <> AuthService.UserAlreadyExists ->
     AuthController.register body w
     = (set_console (console w' ++ [("Register error:", e)]) w',
        Resolved (Http.mkResponse 500 (Http.error_of e)))).
Proof.
  split; [|split].
  - intros w' r Hr. unfold AuthController.register. run. rewrite Hr. reflexivity.
  - intros u Hin Hu. unfold AuthController.register. run.
    rewrite (register_existing w body u Hin Hu). reflexivity.
  - intros w' e Hr Hne. unfold AuthController.register. run. rewrite Hr.
    replace (Http.statusCode_or_500 e) with 500; [reflexivity|].
    destruct (find (fun u => (User.email u == AuthService.reg_email body)
                             || (User.username u == AuthService.reg_username body))
                   (users w)) as [x|] eqn:Hu.
    { exfalso. apply Hne.
      assert (E : AuthService.register body w = (w, Rejected AuthService.UserAlreadyExists))
        by (unfold AuthService.register; run; rewrite Hu; reflexivity).
      rewrite E in Hr. injection Hr as _ <-. reflexivity. }
    destruct (find (fun r => Role.name r == "USER") (roles w)) as [role|] eqn:Hro.
    + rewrite (register_run w body role Hu Hro) in Hr. cbv zeta in Hr.
      destruct (existsb _ (companies w)); [injection Hr as _ <-; reflexivity|].
      destruct (existsb _ (users w)); [injection Hr as _ <-; reflexivity | discriminate].
    + assert (E : AuthService.register body w
                  = (set_entropy (S (entropy w)) w,
                     Rejected AuthService.DefaultRoleNotFound))
        by (unfold AuthService.register; run; rewrite Hu; cbn [roles set_entropy];
            rewrite Hro; reflexivity).
      rewrite E in Hr. injection Hr as _ <-. reflexivity.
Qed.

(** X26. The change-password endpoint answers 401 without calling the
    service when the request carries no user id or an empty one; otherwise
    it answers 200 with the service's result, and for a rejection, which
    leaves the store unchanged, 404 when the account is missing and 400
    otherwise. *)
Theorem changePassword_endpoint_statuses (w : World) (currentPassword newPassword : string) :
  UserController.changePassword None currentPassword newPassword w
  = (w, Resolved (Http.mkResponse 401 (Http.error "Unauthorized")))
  /\
  UserController.changePassword (Some "") currentPassword newPassword w
  = (w, Resolved (Http.mkResponse 401 (Http.error "Unauthorized")))
  /\
  (forall userId w' m,
     userId <> "" ->
     UserService.changePassword userId currentPassword newPassword w = (w', Resolved m) ->
     UserController.changePassword (Some userId) currentPassword newPassword w
     = (w', Resolved (Http.mkResponse 200 (Http.success m))))
  /\
  (forall userId w' e,
     userId <> "" ->
     UserService.changePassword userId currentPassword newPassword w = (w', Rejected e) ->
     w' = w /\
     UserController.changePassword (Some userId) currentPassword newPassword w
     = (set_console (console w ++ [("changePassword error:", e)]) w,
        Resolved (Http.mkResponse
                    (match find (fun v => User.id v == userId) (users w) with
                     | Some _ => 400
                     | None => 404
                     end)
                    (Http.error_of e)))).
Proof.
  split; [reflexivity|]. split; [reflexivity|]. split.
  - intros userId w' m Hne Hr. apply String.eqb_neq in Hne.
    unfold UserController.changePassword. run. rewrite Hne, Hr. reflexivity.
  - intros userId w' e Hne Hr. apply String.eqb_neq in Hne.
    assert (Hcase : w' = w /\
                    Http.statusCode_or_500 e
                    = match find (fun v => User.id v == userId) (users w) with
                      | Some _ => 400
                      | None => 404
                      end).
    { revert Hr. unfold UserService.changePassword. run.
      destruct (find _ (users w)) as [u|] eqn:Hu;
        [|intros E; injection E as <- <-; split; reflexivity].
      destruct (compare currentPassword (User.password u)); cbn [negb];
        [|intros E; injection E as <- <-; split; reflexivity].
      fold (history_of u). rewrite checkHistory_scan.
      destruct (existsb _ _); [intros E; injection E as <- <-; split; reflexivity|].
      cbn [users set_entropy]. rewrite Hu. discriminate. }
    destruct Hcase as [-> Hst]. split; [reflexivity|].
    unfold UserController.changePassword. run. rewrite Hne, Hr, Hst. reflexivity.
Qed.

End Properties.

(** ** The services run on the toy platform *)

(** The scenario of the specification: alice registers and logs in; five
    logins with a wrong password follow; the sixth, with the right password,
    is rejected as locked; fifteen minutes after the fifth failure the right
    password logs in again and the lock fields are cleared. *)
Example lockout_scenario :
  let w1 := fst (AuthService.register (H := Toy.platform) Toy.alice_registers Toy.empty_store) in
  let w2 := fst (AuthService.login (H := Toy.platform) (Toy.alice_logs_in "Passw0rd!")
                   (set_now 1000 w1)) in
  let bad := Login (Toy.alice_logs_in "guess") in
  let w3 := serve (H := Toy.platform)
              [bad; Elapse 3000; bad; Elapse 4000; bad; Elapse 5000; bad; Elapse 6000; bad]
              (set_now 2000 w2) in
  let late := AuthService.login (H := Toy.platform) (Toy.alice_logs_in "Passw0rd!")
                (set_now (6000 + 900000) w3) in
  users w1 = [Toy.alice] /\
  rejection (AuthService.login (H := Toy.platform) (Toy.alice_logs_in "Passw0rd!")
               (set_now 7000 w3))
  = Some AuthService.AccountLocked /\
  rejection late = None /\
  map User.accountStatus (users (fst late)) = ["ACTIVE"] /\
  map User.deactivatedAt (users (fst late)) = [None].
Proof. vm_compute. repeat split. Qed.

(** Four failed logins do not lock the account. *)
Example four_failures_do_not_lock :
  let bad := Login (Toy.alice_logs_in "guess") in
  let w := serve (H := Toy.platform) [bad; bad; bad; bad]
             (Toy.store_of Toy.alice [] [] 1000) in
  rejection (AuthService.login (H := Toy.platform) (Toy.alice_logs_in "Passw0rd!") w) = None.
Proof. vm_compute. reflexivity. Qed.

(** An attempt older than the window does not count towards the threshold. *)
Example old_attempts_do_not_count :
  let w := Toy.store_of Toy.alice []
             [Toy.failed_at 100; Toy.failed_at 200; Toy.failed_at 300; Toy.failed_at 400]
             (100 + 900001) in
  map User.accountStatus
      (users (fst (SecurityService.trackFailedLoginAttempt "alice@example.com" None None w)))
  = ["ACTIVE"].
Proof. vm_compute. reflexivity. Qed.

(** C1, counterexample.  The token verifies and names alice, who exists, but
    no session row carries it: the refresh is rejected and nothing is
    written. *)
Lemma refreshToken_without_session_rejected :
  verify (Platform := Toy.platform) Toy.alice_token
         (JWT_REFRESH_SECRET (Platform := Toy.platform)) 1000 = Some "id-2" /\
  Prisma.user_findUnique_id "id-2" (Toy.store_of Toy.alice [] [] 1000)
  = (Toy.store_of Toy.alice [] [] 1000, Resolved (Some Toy.alice)) /\
  AuthService.refreshToken (H := Toy.platform) Toy.alice_refreshes
    (Toy.store_of Toy.alice [] [] 1000)
  = (Toy.store_of Toy.alice [] [] 1000, Rejected AuthService.InvalidRefreshToken).
Proof. vm_compute. repeat split. Qed.

Lemma refreshToken_needs_session_witness :
  existsb (token_is Toy.alice_token)
          (userSessions (Toy.store_of Toy.alice [Toy.alice_session] [] 1000)) = true /\
  exists w' r,
    AuthService.refreshToken (H := Toy.platform) Toy.alice_refreshes
      (Toy.store_of Toy.alice [Toy.alice_session] [] 1000)
    = (w', Resolved r) /\
    users w' = [Toy.alice].
Proof.
  split; [reflexivity|].
  destruct (proj2 (refreshToken_needs_session (H := Toy.platform)
                     (Toy.store_of Toy.alice [Toy.alice_session] [] 1000)
                     Toy.alice_refreshes "id-2" Toy.alice eq_refl eq_refl) eq_refl)
    as [w' [r [Hr [_ [_ [_ [_ Hu]]]]]]].
  exists w', r. split; [exact Hr | exact Hu].
Defined.

Lemma lockout_at_threshold_witness :
  5 <= recentAttempts "id-2"
         (Toy.store_of Toy.alice []
            [Toy.failed_at 100; Toy.failed_at 200; Toy.failed_at 300; Toy.failed_at 400] 500)
       + 1 /\
  rejection
    (AuthService.login (H := Toy.platform) (Toy.alice_logs_in "Passw0rd!")
       (set_now 600
          (fst (SecurityService.trackFailedLoginAttempt "alice@example.com" None None
                  (Toy.store_of Toy.alice []
                     [Toy.failed_at 100; Toy.failed_at 200; Toy.failed_at 300;
                      Toy.failed_at 400] 500)))))
  = Some AuthService.AccountLocked.
Proof.
  split; [vm_compute; discriminate|].
  destruct (lockout_at_threshold (H := Toy.platform)
              (Toy.store_of Toy.alice []
                 [Toy.failed_at 100; Toy.failed_at 200; Toy.failed_at 300; Toy.failed_at 400]
                 500)
              "alice@example.com" None None Toy.alice eq_refl
              ltac:(vm_compute; discriminate))
    as [w' [u' [Ht [_ [_ [_ [_ [_ Hl]]]]]]]].
  rewrite Ht. cbn [fst]. unfold Toy.alice_logs_in.
  rewrite (Hl 600 "Passw0rd!" None None ltac:(vm_compute; reflexivity)).
  reflexivity.
Defined.

Lemma isAccountLocked_window_witness :
  SecurityService.isAccountLocked "id-2" Toy.locked_store
  = (Toy.locked_store, Resolved true) /\
  exists w',
    SecurityService.isAccountLocked "id-2"
      (set_now (1000 + 900000) Toy.locked_store)
    = (w', Resolved false).
Proof.
  split.
  - apply (proj1 (proj2 (isAccountLocked_window Toy.locked_store "id-2")
                    (SecurityService.lock_data 1000 Toy.alice) 1000
                    eq_refl eq_refl eq_refl)).
    vm_compute. reflexivity.
  - destruct (proj2 (proj2 (isAccountLocked_window
                              (set_now (1000 + 900000) Toy.locked_store) "id-2")
                       (SecurityService.lock_data 1000 Toy.alice) 1000
                       eq_refl eq_refl eq_refl)
                ltac:(vm_compute; discriminate))
      as [w' [u' [Hr _]]].
    exists w'. exact Hr.
Defined.

Lemma changePassword_contract_witness :
  compare (Platform := Toy.platform) "Passw0rd!" (User.password Toy.alice) = true /\
  exists w' u',
    UserService.changePassword (H := Toy.platform) "id-2" "Passw0rd!" "N3wPassw0rd!"
      (Toy.store_of Toy.alice [] [] 1000)
    = (w', Resolved "Password updated successfully") /\
    User.password u' = "4$N3wPassw0rd!" /\
    User.lastPasswordChange u' = Some 1000.
Proof.
  split; [reflexivity|].
  destruct (proj2 (proj2 (proj2 (changePassword_contract (H := Toy.platform)
                                   (Toy.store_of Toy.alice [] [] 1000)
                                   "id-2" "Passw0rd!" "N3wPassw0rd!")
                            Toy.alice eq_refl))
              eq_refl (fun h (Hin : In h []) => match Hin with end))
    as [w' [u' [Hr [_ [Hp [_ [_ Hl]]]]]]].
  exists w', u'. split; [exact Hr|]. split; [exact Hp | exact Hl].
Defined.

(** C5, counterexample.  Alice's account is locked: a login with her email
    and a wrong password is rejected as locked and records nothing, while
    the same login with an unknown email is rejected with the
    invalid-credentials error. *)
Lemma login_locked_account_distinguishable :
  compare (Platform := Toy.platform) "guess"
          (User.password (SecurityService.lock_data 1000 Toy.alice)) = false /\
  AuthService.login (H := Toy.platform) (Toy.alice_logs_in "guess") Toy.locked_store
  = (Toy.locked_store, Rejected AuthService.AccountLocked) /\
  rejection (AuthService.login (H := Toy.platform)
               (AuthService.mkLoginDto "nobody@example.com" "guess" None None)
               Toy.locked_store)
  = Some AuthService.InvalidCredentials /\
  AuthService.AccountLocked <> AuthService.InvalidCredentials.
Proof. vm_compute. repeat split. discriminate. Qed.

Lemma login_failure_uniform_witness :
  compare (Platform := Toy.platform) "guess" (User.password Toy.alice) = false /\
  rejection (AuthService.login (H := Toy.platform) (Toy.alice_logs_in "guess")
               (Toy.store_of Toy.alice [] [] 1000))
  = Some AuthService.InvalidCredentials /\
  rejection (AuthService.login (H := Toy.platform)
               (AuthService.mkLoginDto "nobody@example.com" "guess" None None)
               (Toy.store_of Toy.alice [] [] 1000))
  = Some AuthService.InvalidCredentials.
Proof.
  split; [reflexivity|]. split.
  - destruct (proj2 (login_failure_uniform (H := Toy.platform)
                       (Toy.store_of Toy.alice [] [] 1000) (Toy.alice_logs_in "guess"))
                Toy.alice eq_refl eq_refl eq_refl)
      as [w' [Hr _]].
    rewrite Hr. reflexivity.
  - destruct (proj1 (login_failure_uniform (H := Toy.platform)
                       (Toy.store_of Toy.alice [] [] 1000)
                       (AuthService.mkLoginDto "nobody@example.com" "guess" None None))
                eq_refl)
      as [w' [Hr _]].
    rewrite Hr. reflexivity.
Defined.

Lemma createSession_replaces_witness :
  tokens_unique (Toy.store_of Toy.alice [Toy.alice_session] [] 1000) /\
  tokens_unique
    (serve (H := Toy.platform)
       [Login (Toy.alice_logs_in "Passw0rd!"); RefreshToken Toy.alice_refreshes;
        Logout Toy.alice_token]
       (Toy.store_of Toy.alice [Toy.alice_session] [] 1000)).
Proof.
  assert (Hw : tokens_unique (Toy.store_of Toy.alice [Toy.alice_session] [] 1000)).
  { constructor; [intros [] | constructor]. }
  split; [exact Hw|].
  apply (proj2 (proj2 (createSession_replaces (H := Toy.platform)
                         (Toy.store_of Toy.alice [Toy.alice_session] [] 1000)
                         "id-2" Toy.alice_token None None) Hw)).
Defined.

Lemma register_conflict_witness :
  In Toy.alice (users (Toy.store_of Toy.alice [] [] 1000)) /\
  AuthService.register (H := Toy.platform) Toy.alice_registers
    (Toy.store_of Toy.alice [] [] 1000)
  = (Toy.store_of Toy.alice [] [] 1000, Rejected AuthService.UserAlreadyExists).
Proof.
  split; [left; reflexivity|].
  apply (proj1 (register_conflict (H := Toy.platform) (Toy.store_of Toy.alice [] [] 1000)
                  Toy.alice_registers) Toy.alice).
  - left. reflexivity.
  - left. reflexivity.
Defined.

Lemma logout_always_succeeds_witness :
  existsb (token_is Toy.alice_token) (userSessions (Toy.store_of Toy.alice [] [] 1000))
  = false /\
  exists w',
    AuthService.logout Toy.alice_token (Toy.store_of Toy.alice [] [] 1000)
    = (w', Resolved tt) /\
    userSessions w' = [] /\
    console w'
    = [("Error during logout, refresh token might not exist:", Prisma.P2025)].
Proof.
  split; [reflexivity|].
  destruct (logout_always_succeeds (Toy.store_of Toy.alice [] [] 1000)
              Toy.alice_token)
    as [w' [Hr [_ [_ [Hn _]]]]].
  exists w'. split; [exact Hr|]. rewrite (Hn eq_refl). split; reflexivity.
Defined.

Lemma login_locked_frame_witness :
  1500 < 1000 + 15 * 60 * 1000 /\
  AuthService.login (H := Toy.platform) (Toy.alice_logs_in "Passw0rd!")
    (set_now 1500 Toy.locked_store)
  = (set_now 1500 Toy.locked_store, Rejected AuthService.AccountLocked).
Proof.
  split; [reflexivity|].
  apply (login_locked_frame (H := Toy.platform) (set_now 1500 Toy.locked_store)
           (Toy.alice_logs_in "Passw0rd!")
           (SecurityService.lock_data 1000 Toy.alice)
           (SecurityService.lock_data 1000 Toy.alice) 1000);
    reflexivity.
Defined.

Lemma changePassword_ignores_current_hash_witness :
  compare (Platform := Toy.platform) "Passw0rd!" (User.password Toy.alice) = true /\
  (exists w',
     UserService.changePassword (H := Toy.platform) "id-2" "Passw0rd!" "Passw0rd!"
       (Toy.store_of Toy.alice [] [] 1000)
     = (w', Resolved "Password updated successfully")) /\
  (exists w2,
     UserService.changePassword (H := Toy.platform) "id-2" "Passw0rd!" "Passw0rd!"
       (set_now 1000
          (fst (AuthService.register (H := Toy.platform) Toy.alice_registers
                  Toy.empty_store)))
     = (w2, Resolved "Password updated successfully")).
Proof.
  split; [reflexivity|]. split.
  - apply (proj1 (changePassword_ignores_current_hash (H := Toy.platform)
                    (Toy.store_of Toy.alice [] [] 1000))
             "id-2" "Passw0rd!" Toy.alice);
      reflexivity.
  - destruct (AuthService.register (H := Toy.platform) Toy.alice_registers Toy.empty_store)
      as [w1 [r | e]] eqn:Hreg; [|vm_compute in Hreg; discriminate].
    assert (Hid : AuthService.sum_id (AuthService.user r) = "id-2").
    { vm_compute in Hreg. injection Hreg as _ <-. reflexivity. }
    destruct (proj2 (changePassword_ignores_current_hash (H := Toy.platform) Toy.empty_store)
                Toy.alice_registers w1 r 1000 Hreg eq_refl)
      as [u [w2 [_ [_ Hc]]]].
    rewrite Hid in Hc. exists w2. exact Hc.
Defined.

(** ** The further properties on the toy platform *)

Lemma getUserSessions_active_newest_first_witness :
  exists l,
    SecurityService.getUserSessions "id-2" (Toy.store_of Toy.alice [Toy.alice_session] [] 1000)
    = (Toy.store_of Toy.alice [Toy.alice_session] [] 1000, Resolved l) /\
    In Toy.alice_session l.
Proof.
  destruct (getUserSessions_active_newest_first
              (Toy.store_of Toy.alice [Toy.alice_session] [] 1000) "id-2")
    as [l [Hr [_ [_ Hin]]]].
  exists l. split; [exact Hr|]. apply Hin.
  split; [left; reflexivity|]. split; reflexivity.
Defined.

Lemma createSession_then_listed_witness :
  2000 < now (Toy.store_of Toy.alice [] [] 1000) + 24 * 60 * 60 * 1000 /\
  exists s w' l,
    SecurityService.createSession "id-2" Toy.alice_token None None
      (Toy.store_of Toy.alice [] [] 1000)
    = (w', Resolved s) /\
    SecurityService.getUserSessions "id-2" (set_now 2000 w') = (set_now 2000 w', Resolved l) /\
    In s l.
Proof.
  split; [reflexivity|].
  destruct (createSession_then_listed (Toy.store_of Toy.alice [] [] 1000) "id-2"
              Toy.alice_token None None 2000 eq_refl)
    as [s [w' [l [Hc [Hg [Hin _]]]]]].
  exists s, w', l. split; [exact Hc|]. split; [exact Hg | exact Hin].
Defined.

Lemma invalidateAllSessions_clears_witness :
  "id-9" <> "id-2" /\
  exists w',
    SecurityService.invalidateAllSessions "id-2"
      (Toy.store_of Toy.alice [Toy.alice_session] [] 1000)
    = (w', Resolved tt) /\
    snd (SecurityService.getUserSessions "id-9" (set_now 2000 w'))
    = snd (SecurityService.getUserSessions "id-9"
             (set_now 2000 (Toy.store_of Toy.alice [Toy.alice_session] [] 1000))).
Proof.
  split; [discriminate|].
  destruct (invalidateAllSessions_clears
              (Toy.store_of Toy.alice [Toy.alice_session] [] 1000) "id-2")
    as [w' [Hr [_ [_ Hother]]]].
  exists w'. split; [exact Hr|]. apply Hother. discriminate.
Defined.

Lemma invalidateSession_missing_or_removed_witness :
  existsb (token_is Toy.alice_token) (userSessions (Toy.store_of Toy.alice [] [] 1000))
  = false /\
  SecurityService.invalidateSession Toy.alice_token (Toy.store_of Toy.alice [] [] 1000)
  = (Toy.store_of Toy.alice [] [] 1000, Rejected Prisma.P2025).
Proof.
  split; [reflexivity|].
  apply (proj1 (invalidateSession_missing_or_removed (Toy.store_of Toy.alice [] [] 1000)
                  Toy.alice_token)).
  reflexivity.
Defined.

Lemma cleanupOldRecords_sweeps_witness :
  exists w',
    SecurityService.cleanupOldRecords (Toy.store_of Toy.alice [Toy.alice_session] [] 1000)
    = (w', Resolved tt) /\
    In Toy.alice_session (userSessions w').
Proof.
  destruct (cleanupOldRecords_sweeps (Toy.store_of Toy.alice [Toy.alice_session] [] 1000))
    as [w' [Hr [Hs _]]].
  exists w'. split; [exact Hr|]. apply Hs. split; [left; reflexivity|].
  vm_compute. discriminate.
Defined.

Lemma trackFailedLoginAttempt_below_threshold_witness :
  recentAttempts "id-2" (Toy.store_of Toy.alice [] [Toy.failed_at 100; Toy.failed_at 200] 500)
  + 1 < 5 /\
  users (fst (SecurityService.trackFailedLoginAttempt "alice@example.com" None None
                (Toy.store_of Toy.alice [] [Toy.failed_at 100; Toy.failed_at 200] 500)))
  = [Toy.alice].
Proof.
  split; [reflexivity|].
  rewrite (proj2 (trackFailedLoginAttempt_below_threshold
                    (Toy.store_of Toy.alice [] [Toy.failed_at 100; Toy.failed_at 200] 500)
                    "alice@example.com" None None)
             Toy.alice eq_refl eq_refl).
  reflexivity.
Defined.

Lemma login_grants_session_witness :
  compare (Platform := Toy.platform) "Passw0rd!" (User.password Toy.alice) = true /\
  exists w' r,
    AuthService.login (H := Toy.platform) (Toy.alice_logs_in "Passw0rd!")
      (Toy.store_of Toy.alice [] [] 1000)
    = (w', Resolved r) /\
    AuthService.refreshToken_ r = "refresh-secret:id-2:1000_4".
Proof.
  split; [reflexivity|].
  destruct (login_grants_session (H := Toy.platform) (Toy.store_of Toy.alice [] [] 1000)
              (Toy.alice_logs_in "Passw0rd!") Toy.alice Toy.alice eq_refl eq_refl
              (or_intror eq_refl) eq_refl)
    as [w' [r [Hr [_ [Ht _]]]]].
  exists w', r. split; [exact Hr|]. rewrite Ht. reflexivity.
Defined.

Lemma login_after_lockout_clears_lock_witness :
  1000 + 15 * 60 * 1000 <= now (set_now 901000 Toy.locked_store) /\
  exists w' r u',
    AuthService.login (H := Toy.platform) (Toy.alice_logs_in "Passw0rd!")
      (set_now 901000 Toy.locked_store)
    = (w', Resolved r) /\
    Prisma.user_findUnique_id "id-2" w' = (w', Resolved (Some u')) /\
    User.accountStatus u' = "ACTIVE".
Proof.
  split; [vm_compute; discriminate|].
  destruct (login_after_lockout_clears_lock (H := Toy.platform)
              (set_now 901000 Toy.locked_store) (Toy.alice_logs_in "Passw0rd!")
              (SecurityService.lock_data 1000 Toy.alice)
              (SecurityService.lock_data 1000 Toy.alice) 1000
              eq_refl eq_refl eq_refl eq_refl ltac:(vm_compute; discriminate) eq_refl)
    as [w' [r [u' [Hr [Hu [Hs _]]]]]].
  exists w', r, u'. split; [exact Hr|]. split; [exact Hu | exact Hs].
Defined.

Lemma register_creates_account_witness :
  exists w' r,
    AuthService.register (H := Toy.platform) Toy.alice_registers Toy.empty_store
    = (w', Resolved r) /\
    users w' = [Toy.alice].
Proof.
  destruct (register_creates_account (H := Toy.platform) Toy.empty_store
              Toy.alice_registers (Role.mk "role-user" "USER") eq_refl eq_refl
              (fun c (Hin : In c []) => match Hin with end)
              (fun v (Hin : In v []) => match Hin with end))
    as [w' [r [c [u [Hr [_ [Hc [Hus [Hu _]]]]]]]]].
  exists w', r. split; [exact Hr|]. rewrite Hus, Hu, Hc. reflexivity.
Defined.

Lemma register_without_default_role_witness :
  exists w',
    AuthService.register (H := Toy.platform) Toy.alice_registers
      (mkWorld [] [] [] [] [] [] 0 0 [])
    = (w', Rejected AuthService.DefaultRoleNotFound) /\
    users w' = [] /\ companies w' = [].
Proof.
  destruct (register_without_default_role (H := Toy.platform)
              (mkWorld [] [] [] [] [] [] 0 0 []) Toy.alice_registers eq_refl eq_refl)
    as [w' [Hr [Hu [Hc _]]]].
  exists w'. split; [exact Hr|]. split; [exact Hu | exact Hc].
Defined.

Lemma register_company_identifier_taken_witness :
  toUpperCase (Platform := Toy.platform) "Alice" = "ALICE" /\
  exists w',
    AuthService.register (H := Toy.platform)
      (AuthService.mkRegisterDto "al@example.com" "Alice" "S3cret!" "Al" "Ice" None None)
      (Toy.store_of Toy.alice [] [] 1000)
    = (w', Rejected Prisma.P2002) /\
    users w' = [Toy.alice].
Proof.
  split; [reflexivity|].
  destruct (register_company_identifier_taken (H := Toy.platform)
              (Toy.store_of Toy.alice [] [] 1000)
              (AuthService.mkRegisterDto "al@example.com" "Alice" "S3cret!" "Al" "Ice"
                 None None)
              (Role.mk "role-user" "USER")
              (Company.mk "id-1" "Alice's Company" "ALICE" true)
              eq_refl eq_refl (or_introl eq_refl) eq_refl)
    as [w' [Hr [Hu _]]].
  exists w'. split; [exact Hr | exact Hu].
Defined.

Lemma register_then_login_witness :
  exists w2 r2,
    AuthService.login (H := Toy.platform) (Toy.alice_logs_in "Passw0rd!")
      (set_now 5000
         (fst (AuthService.register (H := Toy.platform) Toy.alice_registers
                 Toy.empty_store)))
    = (w2, Resolved r2) /\
    AuthService.sum_id (AuthService.user r2) = "id-2".
Proof.
  destruct (AuthService.register (H := Toy.platform) Toy.alice_registers Toy.empty_store)
    as [w1 [r | e]] eqn:Hreg; [|vm_compute in Hreg; discriminate].
  destruct (register_then_login (H := Toy.platform) Toy.empty_store w1 Toy.alice_registers
              r 5000 None None Hreg eq_refl)
    as [w2 [r2 [Hl Hu]]].
  exists w2, r2. split; [exact Hl|]. rewrite Hu.
  vm_compute in Hreg. injection Hreg as _ <-. reflexivity.
Defined.

Lemma refreshToken_rejects_atomically_witness :
  AuthService.refreshToken (H := Toy.platform)
    (AuthService.mkRefreshTokenDto "forged" None None) (Toy.store_of Toy.alice [] [] 1000)
  = (Toy.store_of Toy.alice [] [] 1000, Rejected AuthService.InvalidRefreshToken).
Proof.
  destruct (AuthService.refreshToken (H := Toy.platform)
              (AuthService.mkRefreshTokenDto "forged" None None)
              (Toy.store_of Toy.alice [] [] 1000))
    as [w' [r | e]] eqn:E; [vm_compute in E; discriminate|].
  destruct (refreshToken_rejects_atomically (H := Toy.platform) _ _ _ _ E) as [-> ->].
  reflexivity.
Defined.

Lemma refreshToken_single_use_witness :
  rejection
    (AuthService.refreshToken (H := Toy.platform) Toy.alice_refreshes
       (set_now 5000
          (fst (AuthService.refreshToken (H := Toy.platform) Toy.alice_refreshes
                  (Toy.store_of Toy.alice [Toy.alice_session] [] 1000)))))
  = Some AuthService.InvalidRefreshToken.
Proof.
  destruct (AuthService.refreshToken (H := Toy.platform) Toy.alice_refreshes
              (Toy.store_of Toy.alice [Toy.alice_session] [] 1000))
    as [w' [r | e]] eqn:E; [|vm_compute in E; discriminate].
  assert (Hne : AuthService.refreshToken_ r
                <> AuthService.refresh_refreshToken Toy.alice_refreshes).
  { pose proof E as E'. vm_compute in E'. injection E' as _ <-. discriminate. }
  cbn [fst].
  pose proof (refreshToken_single_use (H := Toy.platform) _ _ _ _ E Hne 5000 None None) as Hr.
  change (AuthService.mkRefreshTokenDto
            (AuthService.refresh_refreshToken Toy.alice_refreshes) None None)
    with Toy.alice_refreshes in Hr.
  rewrite Hr. reflexivity.
Defined.

Lemma login_then_refresh_witness :
  exists w2 r2,
    AuthService.refreshToken (H := Toy.platform)
      (AuthService.mkRefreshTokenDto "refresh-secret:id-2:1000_4" None None)
      (set_now 2000
         (fst (AuthService.login (H := Toy.platform) (Toy.alice_logs_in "Passw0rd!")
                 (Toy.store_of Toy.alice [] [] 1000))))
    = (w2, Resolved r2) /\
    AuthService.sum_id (AuthService.user r2) = "id-2".
Proof.
  destruct (AuthService.login (H := Toy.platform) (Toy.alice_logs_in "Passw0rd!")
              (Toy.store_of Toy.alice [] [] 1000))
    as [w1 [r | e]] eqn:E; [|vm_compute in E; discriminate].
  assert (Hr : AuthService.refreshToken_ r = "refresh-secret:id-2:1000_4" /\
               AuthService.sum_id (AuthService.user r) = "id-2").
  { pose proof E as E'. vm_compute in E'. injection E' as _ <-. split; reflexivity. }
  destruct Hr as [Ht Hi].
  destruct (login_then_refresh (H := Toy.platform) _ _ _ _ 2000 None None E
              ltac:(rewrite Ht, Hi; reflexivity))
    as [w2 [r2 [Hf Hu]]].
  rewrite Ht in Hf. exists w2, r2. split; [exact Hf|]. rewrite Hu. exact Hi.
Defined.

Lemma getPasswordHistory_reports_dates_witness :
  UserService.getPasswordHistory "nobody" (Toy.store_of Toy.alice [] [] 1000)
  = (Toy.store_of Toy.alice [] [] 1000, Rejected UserService.UserNotFound) /\
  UserService.getPasswordHistory "id-2" (Toy.store_of Toy.alice [] [] 1000)
  = (Toy.store_of Toy.alice [] [] 1000,
     Resolved (UserService.mkPasswordHistoryView [] None)).
Proof.
  split.
  - apply (proj1 (getPasswordHistory_reports_dates (H := Toy.platform)
                    (Toy.store_of Toy.alice [] [] 1000) "nobody")).
    reflexivity.
  - apply (proj1 (proj2 (getPasswordHistory_reports_dates (H := Toy.platform)
                           (Toy.store_of Toy.alice [] [] 1000) "id-2")) Toy.alice).
    reflexivity.
Defined.

Lemma changePassword_then_login_witness :
  exists w2 r,
    AuthService.login (H := Toy.platform) (Toy.alice_logs_in "N3wPassw0rd!")
      (set_now 2000
         (fst (UserService.changePassword (H := Toy.platform) "id-2" "Passw0rd!"
                 "N3wPassw0rd!" (Toy.store_of Toy.alice [] [] 1000))))
    = (w2, Resolved r).
Proof.
  destruct (UserService.changePassword (H := Toy.platform) "id-2" "Passw0rd!"
              "N3wPassw0rd!" (Toy.store_of Toy.alice [] [] 1000))
    as [w' [m | e]] eqn:E; [|vm_compute in E; discriminate].
  cbn [fst].
  apply (proj1 (changePassword_then_login (H := Toy.platform) _ _ _ _ _ _
                  "alice@example.com" Toy.alice 2000 None None E eq_refl eq_refl
                  (or_intror eq_refl))).
  reflexivity.
Defined.

Lemma history_bounded_forever_witness :
  history_bounded (Toy.store_of Toy.alice [] [] 1000) /\
  history_bounded
    (serve (H := Toy.platform)
       [ChangePassword "id-2" "Passw0rd!" "N3wPassw0rd!";
        ChangePassword "id-2" "N3wPassw0rd!" "Passw0rd!"]
       (Toy.store_of Toy.alice [] [] 1000)).
Proof.
  assert (Hw : history_bounded (Toy.store_of Toy.alice [] [] 1000)).
  { constructor; [|constructor]. apply Nat.le_0_l. }
  split; [exact Hw|].
  apply (history_bounded_forever (H := Toy.platform)). exact Hw.
Defined.

Lemma changePassword_again_rejected_witness :
  rejection
    (UserService.changePassword (H := Toy.platform) "id-2" "N3wPassw0rd!" "N3wPassw0rd!"
       (set_now 2000
          (fst (UserService.changePassword (H := Toy.platform) "id-2" "Passw0rd!"
                  "N3wPassw0rd!" (Toy.store_of Toy.alice [] [] 1000)))))
  = Some UserService.PasswordReused.
Proof.
  destruct (UserService.changePassword (H := Toy.platform) "id-2" "Passw0rd!"
              "N3wPassw0rd!" (Toy.store_of Toy.alice [] [] 1000))
    as [w' [m | e]] eqn:E; [|vm_compute in E; discriminate].
  cbn [fst].
  rewrite (changePassword_again_rejected (H := Toy.platform) _ _ _ _ _ _ 2000 E eq_refl).
  reflexivity.
Defined.

Lemma changePassword_back_to_previous_witness :
  exists w2,
    UserService.changePassword (H := Toy.platform) "id-2" "N3wPassw0rd!" "Passw0rd!"
      (set_now 2000
         (fst (UserService.changePassword (H := Toy.platform) "id-2" "Passw0rd!"
                 "N3wPassw0rd!" (Toy.store_of Toy.alice [] [] 1000))))
    = (w2, Resolved "Password updated successfully").
Proof.
  destruct (UserService.changePassword (H := Toy.platform) "id-2" "Passw0rd!"
              "N3wPassw0rd!" (Toy.store_of Toy.alice [] [] 1000))
    as [w' [m | e]] eqn:E; [|vm_compute in E; discriminate].
  cbn [fst].
  apply (changePassword_back_to_previous (H := Toy.platform) _ _ _ _ _ _ Toy.alice 2000 E
           eq_refl (fun h (Hin : In h []) => match Hin with end) eq_refl eq_refl).
Defined.

Lemma register_endpoint_statuses_witness :
  In Toy.alice (users (Toy.store_of Toy.alice [] [] 1000)) /\
  exists w',
    AuthController.register (H := Toy.platform) Toy.alice_registers
      (Toy.store_of Toy.alice [] [] 1000)
    = (w', Resolved (Http.mkResponse 400 (Http.error_of AuthService.UserAlreadyExists))).
Proof.
  split; [left; reflexivity|]. eexists.
  apply (proj1 (proj2 (register_endpoint_statuses (H := Toy.platform)
                         (Toy.store_of Toy.alice [] [] 1000) Toy.alice_registers))
           Toy.alice).
  - left. reflexivity.
  - left. reflexivity.
Defined.

Lemma changePassword_endpoint_statuses_witness :
  "nobody" <> "" /\
  exists w',
    UserController.changePassword (H := Toy.platform) (Some "nobody") "a" "b"
      (Toy.store_of Toy.alice [] [] 1000)
    = (w', Resolved (Http.mkResponse 404 (Http.error_of UserService.UserNotFound))).
Proof.
  split; [discriminate|]. eexists.
  apply (proj2 (proj2 (proj2 (proj2 (changePassword_endpoint_statuses (H := Toy.platform)
                                       (Toy.store_of Toy.alice [] [] 1000) "a" "b")))
                  "nobody" (Toy.store_of Toy.alice [] [] 1000) UserService.UserNotFound
                  ltac:(discriminate) eq_refl)).
Defined.
